(** * Time-entry lifecycle of the Time Tracking App

    A shallow embedding of the parts of the application that create, close
    and read time entries:

    - [supabase/migrations/...sql]: the [time_entries] table, its
      row-level-security policies and the two BEFORE triggers
      ([calculate_time_entry_duration], [update_updated_at_column]);
    - [TimeTracker.tsx]: [loadActiveTimeEntry], [startTimer], [stopTimer],
      the timer effect and [formatTime];
    - the manual entry form (ManualTimeEntry): the duration effect and
      [handleSubmit];
    - [Reports.tsx] and [DashboardStats.tsx]: the queries, the sums, the
      dates of the dashboard and [formatHours].

    Conventions of the model.
    - An instant is an integer number of microseconds since the epoch, the
      resolution of [TIMESTAMP WITH TIME ZONE].  A JavaScript [Date] holds
      milliseconds; [toISOString] followed by the column's input conversion
      multiplies by 1000 ([of_ms]).
    - JavaScript numbers are modelled by exact rationals.  A statement
      about them is made only where the binary values of the program give
      the same result: integers, quarter hours, and roundings that are not
      decided by the last bit.
    - [duration_minutes] is an unbounded integer: the instants the
      application writes are wall-clock readings, whose differences in
      minutes are far inside the INTEGER range.
    - Foreign keys to projects and tasks are not checked; of their
      referential actions, [ON DELETE SET NULL] of [task_id] is modelled.
      The policies of the other tables are not modelled: a request that
      reads [projects] or [tasks] next to [time_entries] is taken to be
      answered.
    - Local time is UTC plus a fixed offset: where local dates and times
      are put together or taken apart, no change of the zone's offset falls
      into the days looked at.
    - A call that awaits a request runs in two parts.  [TimeTracker] and
      [Lifecycle] describe a call that runs to its end before anything else
      happens; [Session] describes the two parts, with what can happen
      between them. *)

From Stdlib Require Import ZArith QArith Qround Lia Lqa Bool.
From stdpp Require Import gmap strings list pretty sorting.

Local Open Scope Z_scope.

(** ** The storage layer *)

Module Sql.

(** Instants are microseconds since the epoch; user and entry
    identifiers (UUIDs) are opaque, here natural numbers. *)
Abbreviation Instant := Z.
Abbreviation UserId := nat.
Abbreviation Id := nat.

(** [CREATE TYPE public.time_entry_category AS ENUM (...)] *)
Inductive time_entry_category := work | study | break | custom.

(** A row of [public.time_entries]; the primary key [id] is the key of the
    table map.  Nullable columns are options ([None] is NULL). *)
Record Row := mkRow {
  user_id : UserId;
  project_id : string;
  task_id : option string;
  category : option time_entry_category;
  description : option string;
  start_time : Instant;
  end_time : option Instant;
  duration_minutes : option Z;
  is_running : option bool;
  created_at : Instant;
  updated_at : Instant
}.

Definition set_end_time (v : option Instant) (r : Row) : Row :=
  mkRow (user_id r) (project_id r) (task_id r) (category r) (description r)
        (start_time r) v (duration_minutes r) (is_running r)
        (created_at r) (updated_at r).

Definition set_duration_minutes (v : option Z) (r : Row) : Row :=
  mkRow (user_id r) (project_id r) (task_id r) (category r) (description r)
        (start_time r) (end_time r) v (is_running r)
        (created_at r) (updated_at r).

Definition set_is_running (v : option bool) (r : Row) : Row :=
  mkRow (user_id r) (project_id r) (task_id r) (category r) (description r)
        (start_time r) (end_time r) (duration_minutes r) v
        (created_at r) (updated_at r).

Definition set_updated_at (v : Instant) (r : Row) : Row :=
  mkRow (user_id r) (project_id r) (task_id r) (category r) (description r)
        (start_time r) (end_time r) (duration_minutes r) (is_running r)
        (created_at r) v.

(** *** SQL's three-valued conditions *)

Definition sql_eq_bool (a b : option bool) : option bool :=
  match a, b with
  | Some x, Some y => Some (Bool.eqb x y)
  | _, _ => None
  end.

Definition sql_and (a b : option bool) : option bool :=
  match a, b with
  | Some false, _ | _, Some false => Some false
  | Some true, Some true => Some true
  | _, _ => None
  end.

Definition is_null {A} (a : option A) : option bool :=
  Some (match a with None => true | Some _ => false end).

(** A PL/pgSQL [IF] takes its branch only when the condition is TRUE. *)
Definition sql_if (c : option bool) : bool :=
  match c with Some true => true | _ => false end.

(** *** Duration arithmetic *)

(** [n / d] rounded to the nearest integer, ties away from zero.
    [EXTRACT(EPOCH FROM interval)] is a [numeric] number of seconds with
    the six decimals of the interval's microseconds; PL/pgSQL converts the
    [numeric] quotient by 60 to the INTEGER column by rounding to the
    nearest integer, a half away from zero.  The quotient is taken exactly
    here: between wall-clock instants a whole number of microseconds
    cannot lie closer to a half minute than the digits [numeric] division
    keeps. *)
Definition numeric_round_div (n d : Z) : Z :=
  Z.sgn n * ((2 * Z.abs n + d) / (2 * d)).

Definition usec_per_minute : Z := 60000000.

(** [EXTRACT(EPOCH FROM (e - s)) / 60] assigned to [duration_minutes]. *)
Definition epoch_minutes (e s : Instant) : Z :=
  numeric_round_div (e - s) usec_per_minute.

(** *** The triggers *)

(** [public.calculate_time_entry_duration()].  [OLD] is [None] when the
    trigger fires for an INSERT, where every [OLD.column] is NULL.
    [start_time] is NOT NULL and no client payload can null it, so
    [NEW.start_time IS NOT NULL] is always true. *)
Definition calculate_time_entry_duration
    (OLD : option Row) (NEW : Row) (now : Instant) : Row :=
  let NEW1 :=
    match end_time NEW with
    | Some e =>
        set_is_running (Some false)
          (set_duration_minutes (Some (epoch_minutes e (start_time NEW))) NEW)
    | None => NEW
    end in
  if sql_if (sql_and (sql_and (sql_eq_bool (is_running NEW1) (Some false))
                              (sql_eq_bool (OLD ≫= is_running) (Some true)))
                     (is_null (end_time NEW1)))
  then set_duration_minutes (Some (epoch_minutes now (start_time NEW1)))
         (set_end_time (Some now) NEW1)
  else NEW1.

(** [public.update_updated_at_column()] *)
Definition update_updated_at_column (NEW : Row) (now : Instant) : Row :=
  set_updated_at now NEW.

(** *** Statements *)

Inductive PgError :=
  | NetworkError      (* the request did not reach the backend *)
  | RlsViolation
  | UniqueViolation
  | PGRST116.         (* [.single()] on zero or several rows *)

#[global] Instance PgError_eq_dec : EqDecision PgError.
Proof. solve_decision. Defined.

(** The [Insert] payload of [time_entries]: an absent key is the outer
    [None] and takes the column default, an explicit [null] is
    [Some None]. *)
Record Insert := mkInsert {
  ins_user_id : option UserId;
  ins_project_id : string;
  ins_task_id : option string;
  ins_category : option (option time_entry_category);
  ins_description : option string;
  ins_start_time : Instant;
  ins_end_time : option Instant;
  ins_duration_minutes : option Z;
  ins_is_running : option (option bool)
}.

(** The [Update] payload, for the columns a client may set. *)
Record Update := mkUpdate {
  upd_project_id : option string;
  upd_task_id : option (option string);
  upd_category : option (option time_entry_category);
  upd_description : option (option string);
  upd_start_time : option Instant;
  upd_end_time : option (option Instant);
  upd_duration_minutes : option (option Z);
  upd_is_running : option (option bool)
}.

(** The candidate row of an INSERT, column defaults applied
    ([category DEFAULT 'work'], [is_running DEFAULT false],
    [created_at], [updated_at DEFAULT now()]). *)
Definition row_of_insert (u : UserId) (p : Insert) (now : Instant) : Row :=
  mkRow u (ins_project_id p) (ins_task_id p)
        (default (Some work) (ins_category p))
        (ins_description p) (ins_start_time p) (ins_end_time p)
        (ins_duration_minutes p)
        (default (Some false) (ins_is_running p))
        now now.

(** The candidate row of an UPDATE. *)
Definition apply_update (p : Update) (OLD : Row) : Row :=
  mkRow (user_id OLD)
        (default (project_id OLD) (upd_project_id p))
        (default (task_id OLD) (upd_task_id p))
        (default (category OLD) (upd_category p))
        (default (description OLD) (upd_description p))
        (default (start_time OLD) (upd_start_time p))
        (default (end_time OLD) (upd_end_time p))
        (default (duration_minutes OLD) (upd_duration_minutes p))
        (default (is_running OLD) (upd_is_running p))
        (created_at OLD) (updated_at OLD).

(** [time_entries], keyed by [id]. *)
Abbreviation Table := (gmap Id Row).

(** [INSERT INTO time_entries ... RETURNING *] by the session [auth];
    [uuid] is the value [gen_random_uuid()] draws.  The BEFORE INSERT
    trigger runs on the candidate row; the policy
    [WITH CHECK (user_id = auth.uid())] and the primary key are checked on
    its result.  A row without [user_id] fails the policy, which is
    checked before the NOT NULL constraint. *)
Definition insert_time_entry (auth : option UserId) (uuid : Id)
    (now : Instant) (p : Insert) (tbl : Table) : PgError + (Row * Table) :=
  match ins_user_id p with
  | None => inl RlsViolation
  | Some u =>
      let NEW := calculate_time_entry_duration None (row_of_insert u p now) now in
      if bool_decide (auth = Some u) then
        match tbl !! uuid with
        | Some _ => inl UniqueViolation
        | None => inr (NEW, <[uuid := NEW]> tbl)
        end
      else inl RlsViolation
  end.

(** What an UPDATE does to one row that passes
    [USING (user_id = auth.uid())]: both BEFORE UPDATE triggers, in the
    order of their names. *)
Definition update_row (p : Update) (now : Instant) (OLD : Row) : Row :=
  update_updated_at_column
    (calculate_time_entry_duration (Some OLD) (apply_update p OLD) now) now.

(** [UPDATE time_entries SET ... WHERE id = i] by the session [auth].  A
    row that is absent or hidden by the policy is not touched, and that is
    no error. *)
Definition update_time_entry (auth : option UserId) (i : Id)
    (now : Instant) (p : Update) (tbl : Table) : Table :=
  alter (fun OLD => if bool_decide (auth = Some (user_id OLD))
                    then update_row p now OLD else OLD) i tbl.

(** [SELECT * ... WHERE user_id = u AND is_running = true] by [auth],
    then [.single()]. *)
Definition select_running_single (auth : option UserId) (u : option UserId)
    (tbl : Table) : PgError + (Id * Row) :=
  match map_to_list
          (filter (fun kv => auth = Some (user_id kv.2) ∧ u = Some (user_id kv.2)
                             ∧ is_running kv.2 = Some true) tbl) with
  | [kv] => inr kv
  | _ => inl PGRST116
  end.

(** What the trigger leaves in every row it lets through: an entry with
    an end has the duration of its two instants and is not running. *)
Definition row_ok (r : Row) : Prop :=
  forall e, end_time r = Some e ->
    duration_minutes r = Some (epoch_minutes e (start_time r))
    /\ is_running r = Some false.

Definition table_ok (tbl : Table) : Prop :=
  forall i r, tbl !! i = Some r -> row_ok r.

(** The tables the backend can hold: every row has been written by an
    INSERT or an UPDATE, whatever client sent it. *)
Inductive statement : Table -> Table -> Prop :=
  | stmt_insert auth uuid now p tbl r tbl' :
      insert_time_entry auth uuid now p tbl = inr (r, tbl') ->
      statement tbl tbl'
  | stmt_update auth i now p tbl :
      statement tbl (update_time_entry auth i now p tbl).

Definition stored (tbl : Table) : Prop := rtc statement ∅ tbl.

End Sql.

(** ** JavaScript values and the client library *)

Module Js.
Import Sql.

(** [toISOString()] of a [Date] holding [ms] milliseconds, as the column
    stores it. *)
Definition of_ms (ms : Z) : Instant := 1000 * ms.

(** [x || y] on strings: the empty string is falsy. *)
Definition or_else (x : option string) (y : string) : string :=
  match x with
  | Some s => if bool_decide (s = EmptyString) then y else s
  | None => y
  end.

(** [s || null] *)
Definition or_null (s : string) : option string :=
  if bool_decide (s = EmptyString) then None else Some s.

(** [n || 0] on a nullable number *)
Definition or_zero (n : option Z) : Z := default 0 n.

(** [x.toFixed(2)] for [x >= 0], by its value: the hundredth nearest to
    [x], the larger one at a tie. *)
Definition toFixed2 (x : Q) : Q :=
  Qmake (Qfloor (x * 100 + (1 # 2))%Q) 100.

(** [Math.round] *)
Definition Math_round (x : Q) : Z := Qfloor (x + (1 # 2))%Q.

(** The integer a [Date] keeps of a time value (truncation towards zero);
    none beyond the range of [Date]. *)
Definition time_clip (x : Q) : option Z :=
  let t := if Qle_bool 0 x then Qfloor x else Qceiling x in
  if Z.abs t <=? 8640000000000000 then Some t else None.

(** A request either reaches the backend ([link = true]) or fails with an
    error and leaves the table alone. *)
Definition request {A} (link : bool) (r : PgError + A) : PgError + A :=
  if link then r else inl NetworkError.

End Js.

(** ** The timer component ([TimeTracker.tsx]) *)

Module TimeTracker.
Import Sql Js.

(** The operations take what the environment supplies as arguments:
    [link], whether the request reaches the backend; [uuid], the
    identifier the backend draws for a new row; [now_ms], the reading of
    the client's clock ([new Date()]); [now], the backend's [now()].  They
    return the next state of the component, the next table and the toast
    shown.  The one-second tick that refreshes [elapsedTime] reads the
    active entry and writes nothing to the store; it is left out. *)

(** [interface TimeEntry]: the columns of a selected row the component
    reads. *)
Record TimeEntry := mkTimeEntry {
  id : Id;
  te_start_time : Instant;
  te_is_running : option bool;
  te_description : option string;
  te_project_id : string;
  te_task_id : option string
}.

Definition entry_of_row (i : Id) (r : Row) : TimeEntry :=
  mkTimeEntry i (start_time r) (is_running r) (description r)
              (project_id r) (task_id r).

Inductive Toast :=
  | Error_loading_active_timer
  | Project_required
  | Error_starting_timer
  | Timer_started
  | Error_stopping_timer
  | Timer_stopped.

(** The [useState] cells of the component and the signed-in [user]. *)
Record State := mkState {
  user : option UserId;
  activeEntry : option TimeEntry;
  selectedProject : string;
  selectedTask : string;
  st_description : string;
  elapsedTime : Z
}.

(** The state of a freshly mounted component. *)
Definition mount (u : option UserId) : State :=
  mkState u None EmptyString EmptyString EmptyString 0.

Definition loadActiveTimeEntry (link : bool) (st : State) (tbl : Table)
    : State * option Toast :=
  match request link (select_running_single (user st) (user st) tbl) with
  | inl e =>
      if bool_decide (e = PGRST116) then (st, None)
      else (st, Some Error_loading_active_timer)
  | inr (i, r) =>
      (mkState (user st) (Some (entry_of_row i r)) (project_id r)
               (or_else (task_id r) EmptyString)
               (or_else (description r) EmptyString) (elapsedTime st),
       None)
  end.

(** The payload [startTimer] inserts; [now_ms] is [new Date()]. *)
Definition start_payload (st : State) (now_ms : Z) : Insert :=
  mkInsert (user st) (selectedProject st) (or_null (selectedTask st))
           None (Some (st_description st)) (of_ms now_ms) None None
           (Some (Some true)).

Definition startTimer (link : bool) (uuid : Id) (now_ms : Z) (now : Instant)
    (st : State) (tbl : Table) : State * Table * option Toast :=
  if bool_decide (selectedProject st = EmptyString) then
    (st, tbl, Some Project_required)
  else
    match request link
            (insert_time_entry (user st) uuid now (start_payload st now_ms) tbl)
    with
    | inl _ => (st, tbl, Some Error_starting_timer)
    | inr (data, tbl') =>
        (mkState (user st) (Some (entry_of_row uuid data)) (selectedProject st)
                 (selectedTask st) (st_description st) (elapsedTime st),
         tbl', Some Timer_started)
    end.

(** The payload [stopTimer] sends. *)
Definition stop_payload (st : State) (now_ms : Z) : Update :=
  mkUpdate None None None (Some (Some (st_description st))) None
           (Some (Some (of_ms now_ms))) None (Some (Some false)).

Definition stopTimer (link : bool) (now_ms : Z) (now : Instant)
    (st : State) (tbl : Table) : State * Table * option Toast :=
  match activeEntry st with
  | None => (st, tbl, None)
  | Some e =>
      if link then
        (mkState (user st) None (selectedProject st) (selectedTask st)
                 EmptyString 0,
         update_time_entry (user st) (id e) now (stop_payload st now_ms) tbl,
         Some Timer_stopped)
      else (st, tbl, Some Error_stopping_timer)
  end.

End TimeTracker.

(** ** The manual entry form (ManualTimeEntry) *)

Module ManualTimeEntry.
Import Sql Js.

Inductive EntryMode := time_range | duration_only.

#[global] Instance EntryMode_eq_dec : EqDecision EntryMode.
Proof. solve_decision. Defined.

Inductive Toast :=
  | Project_required
  | Invalid_duration
  | Error_adding_time_entry
  | Time_entry_added.

(** How a call of [handleSubmit] ends: with a toast, or with the
    [RangeError] that [toISOString] throws on an invalid [Date]. *)
Inductive Outcome :=
  | Toasted (t : Toast)
  | RangeError.

(** The [useState] cells of the form.
    - [date]: the day picked, as the milliseconds of its local midnight;
      [None] when the field is empty.
    - [startTime], [endTime]: the value of an [<input type=time>], the
      minutes after midnight that its [HH:MM] text denotes; [None] when
      the field is empty.
    - [duration]: the text of the duration field, by the number it
      denotes; [None] for the empty text, which [parseFloat] turns into
      NaN. *)
Record Form := mkForm {
  user : option UserId;
  selectedProject : string;
  selectedTask : string;
  description : string;
  date : option Z;
  startTime : option Z;
  endTime : option Z;
  duration : option Q;
  entryMode : EntryMode;
  loading : bool
}.

(** [new Date(`${date}T${time}`).getTime()]; [None] is an invalid
    [Date], whose time value is NaN.  The local time [m] minutes after
    midnight is taken to be the instant [m] minutes after the instant of
    local midnight: the zone's offset does not change on that day. *)
Definition date_at (d : option Z) (hm : option Z) : option Z :=
  match d, hm with
  | Some d, Some m =>
      if (0 <=? m) && (m <? 1440) then Some (d + 60000 * m) else None
  | _, _ => None
  end.

Definition set_duration (v : option Q) (f : Form) : Form :=
  mkForm (user f) (selectedProject f) (selectedTask f) (description f)
         (date f) (startTime f) (endTime f) v (entryMode f) (loading f).

(** The body of the effect "Calculate duration when start/end times
    change". *)
Definition calculate_duration (f : Form) : Form :=
  match entryMode f, startTime f, endTime f with
  | time_range, Some _, Some _ =>
      match date_at (date f) (startTime f), date_at (date f) (endTime f) with
      | Some start, Some end_ =>
          if end_ >? start then
            let diffMs := end_ - start in
            let diffHours := (inject_Z diffMs / inject_Z (1000 * 60 * 60))%Q in
            set_duration (Some (toFixed2 diffHours)) f
          else f
      | _, _ => f
      end
  | _, _, _ => f
  end.

(** The effect runs after the first render and after every render in which
    one of [startTime, endTime, date, entryMode] has changed. *)
Definition same_deps (f g : Form) : bool :=
  bool_decide (startTime f = startTime g) && bool_decide (endTime f = endTime g)
  && bool_decide (date f = date g) && bool_decide (entryMode f = entryMode g).

Definition rerender (prev next : Form) : Form :=
  if same_deps prev next then next else calculate_duration next.

(** The form after its first render; [today] is the local midnight of the
    current day. *)
Definition mount (u : option UserId) (today : Z) : Form :=
  calculate_duration
    (mkForm u EmptyString EmptyString EmptyString (Some today)
            (Some 540) (Some 600) None time_range false).

Definition setDate (v : option Z) (f : Form) : Form :=
  rerender f
    (mkForm (user f) (selectedProject f) (selectedTask f) (description f)
            v (startTime f) (endTime f) (duration f) (entryMode f) (loading f)).

Definition setStartTime (v : option Z) (f : Form) : Form :=
  rerender f
    (mkForm (user f) (selectedProject f) (selectedTask f) (description f)
            (date f) v (endTime f) (duration f) (entryMode f) (loading f)).

Definition setEndTime (v : option Z) (f : Form) : Form :=
  rerender f
    (mkForm (user f) (selectedProject f) (selectedTask f) (description f)
            (date f) (startTime f) v (duration f) (entryMode f) (loading f)).

Definition setDuration (v : option Q) (f : Form) : Form :=
  set_duration v f.

Definition setEntryMode (v : EntryMode) (f : Form) : Form :=
  rerender f
    (mkForm (user f) (selectedProject f) (selectedTask f) (description f)
            (date f) (startTime f) (endTime f) (duration f) v (loading f)).

Definition setLoading (v : bool) (f : Form) : Form :=
  mkForm (user f) (selectedProject f) (selectedTask f) (description f)
         (date f) (startTime f) (endTime f) (duration f) (entryMode f) v.

(** "Reset form" at the end of a successful [handleSubmit]. *)
Definition reset_form (f : Form) : Form :=
  mkForm (user f) (selectedProject f) EmptyString EmptyString
         (date f) (Some 540) (Some 600) None (entryMode f) (loading f).

(** [parseFloat(duration) * 60]; [None] is NaN. *)
Definition durationMinutes (f : Form) : option Q :=
  (fun h => h * 60)%Q <$> duration f.

Definition startDateTime (f : Form) : option Z :=
  match entryMode f with
  | time_range => date_at (date f) (startTime f)
  | duration_only => date_at (date f) (Some 540)
  end.

Definition endDateTime (f : Form) (dm : Q) : option Z :=
  match entryMode f with
  | time_range => date_at (date f) (endTime f)
  | duration_only =>
      startDateTime f ≫= fun s => time_clip (inject_Z s + dm * 60 * 1000)%Q
  end.

(** The payload [handleSubmit] inserts. *)
Definition submit_payload (f : Form) (dm : Q) (s e : Z) : Insert :=
  mkInsert (user f) (selectedProject f) (or_null (selectedTask f))
           None (Some (description f)) (of_ms s) (Some (of_ms e))
           (Some (Math_round dm)) (Some (Some false)).

Definition handleSubmit (link : bool) (uuid : Id) (now : Instant)
    (f : Form) (tbl : Table) : Form * Table * Outcome :=
  if bool_decide (selectedProject f = EmptyString) then
    (f, tbl, Toasted Project_required)
  else
    match durationMinutes f with
    | None => (f, tbl, Toasted Invalid_duration)
    | Some dm =>
        if Qle_bool dm 0 then (f, tbl, Toasted Invalid_duration)
        else
          let f1 := setLoading true f in
          match startDateTime f, endDateTime f dm with
          | Some s, Some e =>
              match request link
                      (insert_time_entry (user f) uuid now
                                         (submit_payload f dm s e) tbl)
              with
              | inl _ =>
                  (setLoading false f1, tbl, Toasted Error_adding_time_entry)
              | inr (_, tbl') =>
                  (rerender f1 (setLoading false (reset_form f1)), tbl',
                   Toasted Time_entry_added)
              end
          | _, _ => (f1, tbl, RangeError)
          end
    end.

(** In the start/end mode the duration shown for a valid range is the one
    the effect derives from it, unless the field is empty. *)
Definition duration_derived (f : Form) : Prop :=
  entryMode f = time_range ->
  forall s e, date_at (date f) (startTime f) = Some s ->
    date_at (date f) (endTime f) = Some e -> s < e ->
    duration f = None
    \/ duration f
       = Some (toFixed2 (inject_Z (e - s) / inject_Z (1000 * 60 * 60))).

(** The text fields that no effect of the form depends on. *)
Definition set_texts (p t d : string) (f : Form) : Form :=
  mkForm (user f) p t d (date f) (startTime f) (endTime f) (duration f)
         (entryMode f) (loading f).

(** What the user can do to the form.  The duration field is rendered in
    the duration-only mode alone. *)
Inductive form_step : Form -> Form -> Prop :=
  | fs_texts p t d f : form_step f (set_texts p t d f)
  | fs_date v f : form_step f (setDate v f)
  | fs_startTime v f : form_step f (setStartTime v f)
  | fs_endTime v f : form_step f (setEndTime v f)
  | fs_duration v f :
      entryMode f = duration_only -> form_step f (setDuration v f)
  | fs_entryMode v f : form_step f (setEntryMode v f)
  | fs_submit link uuid now f tbl :
      form_step f (handleSubmit link uuid now f tbl).1.1.

Definition form_reachable (f : Form) : Prop :=
  exists u today, rtc form_step (mount u today) f.

End ManualTimeEntry.

(** ** The lifecycle operations on the store *)

Module Lifecycle.
Import Sql Js.

(** An edit of a time entry: an UPDATE that sets the description, the
    category, or both. *)
Definition edit_payload (d : option (option string))
    (c : option (option time_entry_category)) : Update :=
  mkUpdate None None c d None None None None.

(** An UPDATE that only sets [is_running] to false. *)
Definition close_payload : Update :=
  mkUpdate None None None None None None None (Some (Some false)).

(** An explicit stop: the UPDATE of [stopTimer], with the end instant [t]
    it supplies. *)
Definition explicit_stop_payload (d : option (option string)) (t : Instant)
    : Update :=
  mkUpdate None None None d None (Some (Some t)) None (Some (Some false)).

(** One lifecycle operation on the store, by the signed-in user [actor].
    The component that issues it is in any state: several sessions, stale
    ones included, are covered. *)
Inductive step : option UserId -> Table -> Table -> Prop :=
  | step_startTimer link uuid now_ms now st tbl :
      step (TimeTracker.user st) tbl
           (TimeTracker.startTimer link uuid now_ms now st tbl).1.2
  | step_stopTimer link now_ms now st tbl :
      step (TimeTracker.user st) tbl
           (TimeTracker.stopTimer link now_ms now st tbl).1.2
  | step_handleSubmit link uuid now f tbl :
      step (ManualTimeEntry.user f) tbl
           (ManualTimeEntry.handleSubmit link uuid now f tbl).1.2
  | step_edit auth i now d c tbl :
      step auth tbl (update_time_entry auth i now (edit_payload d c) tbl).

Definition any_step (tbl tbl' : Table) : Prop :=
  exists actor, step actor tbl tbl'.

Definition reachable (tbl : Table) : Prop := rtc any_step ∅ tbl.

(** I1 *)
Definition I1 (tbl : Table) : Prop :=
  forall i r, tbl !! i = Some r -> is_running r = Some true ->
    end_time r = None /\ duration_minutes r = None.

(** I4 for one owner *)
Definition at_most_one_running (u : UserId) (tbl : Table) : Prop :=
  forall i j ri rj,
    tbl !! i = Some ri -> tbl !! j = Some rj ->
    user_id ri = u -> user_id rj = u ->
    is_running ri = Some true -> is_running rj = Some true ->
    i = j.

Definition none_running (u : UserId) (tbl : Table) : Prop :=
  forall i r, tbl !! i = Some r -> user_id r = u -> is_running r <> Some true.

(** An entry without an end has no duration either; together with
    [row_ok] this is I1. *)
Definition no_end_no_duration (tbl : Table) : Prop :=
  forall i r, tbl !! i = Some r -> end_time r = None ->
    duration_minutes r = None.



End Lifecycle.

(** ** A session with its requests in flight *)

Module Session.
Import Sql Js Lifecycle.

(** [loadActiveTimeEntry], [startTimer] and [stopTimer] are [async]: each
    sends one request and goes on after [await], when the answer has come.
    The part before the request reads the state cells as they were when
    the component was last rendered; the part after it only writes state
    cells.  In between the component is live: inputs change, buttons are
    clicked, other requests are sent and answered.

    The request is taken to act on the store when it is sent, and every
    request that has acted on the store is answered. *)

(** The answer to a request, held until the code after [await] runs. *)
Inductive Answer :=
  | load_answer (r : PgError + Id * Row)
  | start_answer (r : PgError + Id * Row)
  | stop_answer (error : bool).

(** [loadActiveTimeEntry] up to the [await]. *)
Definition loadActiveTimeEntry_request (link : bool) (st : TimeTracker.State)
    (tbl : Table) : Answer :=
  load_answer
    (request link
       (select_running_single (TimeTracker.user st) (TimeTracker.user st)
                              tbl)).

(** [startTimer] up to the [await]; [None] when it returns before, with
    the toast "Project required". *)
Definition startTimer_request (link : bool) (uuid : Id) (now_ms : Z)
    (now : Instant) (st : TimeTracker.State) (tbl : Table)
    : option (Table * Answer) :=
  if bool_decide (TimeTracker.selectedProject st = EmptyString) then None
  else
    match request link
            (insert_time_entry (TimeTracker.user st) uuid now
                               (TimeTracker.start_payload st now_ms) tbl)
    with
    | inl e => Some (tbl, start_answer (inl e))
    | inr (data, tbl') => Some (tbl', start_answer (inr (uuid, data)))
    end.

(** [stopTimer] up to the [await]; [None] when there is no active
    entry. *)
Definition stopTimer_request (link : bool) (now_ms : Z) (now : Instant)
    (st : TimeTracker.State) (tbl : Table) : option (Table * Answer) :=
  match TimeTracker.activeEntry st with
  | None => None
  | Some e =>
      if link then
        Some (update_time_entry (TimeTracker.user st) (TimeTracker.id e) now
                                (TimeTracker.stop_payload st now_ms) tbl,
              stop_answer false)
      else Some (tbl, stop_answer true)
  end.

(** The code after the [await], on the state cells as they are when the
    answer comes. *)
Definition resume (a : Answer) (st : TimeTracker.State)
    : TimeTracker.State * option TimeTracker.Toast :=
  match a with
  | load_answer (inl e) =>
      if bool_decide (e = PGRST116) then (st, None)
      else (st, Some TimeTracker.Error_loading_active_timer)
  | load_answer (inr (i, r)) =>
      (TimeTracker.mkState (TimeTracker.user st)
         (Some (TimeTracker.entry_of_row i r)) (project_id r)
         (or_else (task_id r) EmptyString)
         (or_else (description r) EmptyString) (TimeTracker.elapsedTime st),
       None)
  | start_answer (inl _) => (st, Some TimeTracker.Error_starting_timer)
  | start_answer (inr (i, data)) =>
      (TimeTracker.mkState (TimeTracker.user st)
         (Some (TimeTracker.entry_of_row i data))
         (TimeTracker.selectedProject st) (TimeTracker.selectedTask st)
         (TimeTracker.st_description st) (TimeTracker.elapsedTime st),
       Some TimeTracker.Timer_started)
  | stop_answer true => (st, Some TimeTracker.Error_stopping_timer)
  | stop_answer false =>
      (TimeTracker.mkState (TimeTracker.user st) None
         (TimeTracker.selectedProject st) (TimeTracker.selectedTask st)
         EmptyString 0,
       Some TimeTracker.Timer_stopped)
  end.


(** The component, the store, and the answers not yet handled. *)
Definition Config : Type := TimeTracker.State * Table * list Answer.

(** Whether a request may be sent.  The component itself never holds one
    back: no button is disabled while a request is in flight
    ([patient = false]).  A user with [patient = true] does nothing that
    sends a request of the timer component while an answer to an earlier
    one is awaited. *)
Definition may_send (patient : bool) (pending : list Answer) : Prop :=
  patient = true -> pending = [].

(** One event in the session of the owner [u]: a request of the timer
    component is sent, an answer is handled, an input changes, the manual
    form or an edit writes to the store, or another user does anything.
    The Start button exists only while [activeEntry] is null. *)
Inductive async_step (patient : bool) (u : UserId) : Config -> Config -> Prop :=
  | as_load link st tbl pending :
      may_send patient pending ->
      async_step patient u (st, tbl, pending)
        (st, tbl, pending ++ [loadActiveTimeEntry_request link st tbl])
  | as_input p t d el st tbl pending :
      async_step patient u (st, tbl, pending)
        (TimeTracker.mkState (TimeTracker.user st) (TimeTracker.activeEntry st)
                             p t d el, tbl, pending)
  | as_start link uuid now_ms now st tbl tbl' a pending :
      TimeTracker.activeEntry st = None ->
      may_send patient pending ->
      startTimer_request link uuid now_ms now st tbl = Some (tbl', a) ->
      async_step patient u (st, tbl, pending) (st, tbl', pending ++ [a])
  | as_stop link now_ms now st tbl tbl' a pending :
      may_send patient pending ->
      stopTimer_request link now_ms now st tbl = Some (tbl', a) ->
      async_step patient u (st, tbl, pending) (st, tbl', pending ++ [a])
  | as_answer a st tbl pending1 pending2 :
      async_step patient u (st, tbl, pending1 ++ a :: pending2)
        ((resume a st).1, tbl, pending1 ++ pending2)
  | as_manual link uuid now f st tbl pending :
      ManualTimeEntry.user f = Some u ->
      async_step patient u (st, tbl, pending)
        (st, (ManualTimeEntry.handleSubmit link uuid now f tbl).1.2, pending)
  | as_edit i now d c st tbl pending :
      async_step patient u (st, tbl, pending)
        (st, update_time_entry (Some u) i now (edit_payload d c) tbl, pending)
  | as_other actor st tbl tbl' pending :
      actor <> Some u -> step actor tbl tbl' ->
      async_step patient u (st, tbl, pending) (st, tbl', pending).

(** A freshly mounted component of [u], nothing in flight. *)
Definition fresh (u : UserId) (tbl : Table) : Config :=
  (TimeTracker.mount (Some u), tbl, []).


End Session.

(** ** Reports ([Reports.tsx]) and the dashboard ([DashboardStats.tsx]) *)

Module Reports.
Import Sql Js.

(** A stable sort by insertion; [before a b] says that [a] must come ahead
    of [b]. *)
Fixpoint insert_sorted {A} (before : A -> A -> bool) (x : A) (l : list A)
    : list A :=
  match l with
  | [] => [x]
  | y :: l' =>
      if before y x then y :: insert_sorted before x l' else x :: y :: l'
  end.

Definition sort_by {A} (before : A -> A -> bool) (l : list A) : list A :=
  foldr (insert_sorted before) [] l.

(** The embedded [projects (name, color)] of a selected entry. *)
Record ProjectRef := mkProjectRef {
  name : string;
  color : option string
}.

(** [interface TimeEntry] of the reports page. *)
Record TimeEntry := mkTimeEntry {
  id : Id;
  te_project_id : string;
  te_task_id : option string;
  te_duration_minutes : option Z;
  te_start_time : Instant;
  te_description : option string;
  projects : ProjectRef;
  tasks : option string
}.

Record ChartData := mkChartData {
  cd_name : string;
  hours : Q;
  cd_color : string
}.

Record CsvRow := mkCsvRow {
  csv_Date : string;
  csv_Project : string;
  csv_Task : string;
  csv_Duration : Q;        (* the number printed before the word hours *)
  csv_Description : string
}.

Section Reports.

(** The rows the embedded resources and the date formats are read from:
    the project and the task a foreign key points to, and [date-fns]'s
    [format] for the two patterns used. *)
Variable project_of : string -> ProjectRef.
Variable task_title : string -> string.
Variable format_MMM_dd : Instant -> string.
Variable format_yyyy_MM_dd : Instant -> string.

Definition entry_of_row (kv : Id * Row) : TimeEntry :=
  mkTimeEntry kv.1 (project_id kv.2) (task_id kv.2) (duration_minutes kv.2)
              (start_time kv.2) (description kv.2)
              (project_of (project_id kv.2)) (task_title <$> task_id kv.2).

(** The filters of the query in [loadTimeEntries]; the first conjunct is
    the SELECT policy.  [selectedProject] is [None] for 'all'. *)
Definition report_filter (user : option UserId) (from to : Z)
    (selectedProject : option string) (kv : Id * Row) : Prop :=
  user = Some (user_id kv.2)
  ∧ of_ms from ≤ start_time kv.2
  ∧ start_time kv.2 ≤ of_ms to
  ∧ duration_minutes kv.2 ≠ None
  ∧ from_option (fun p => project_id kv.2 = p) True selectedProject.

#[global] Instance report_filter_dec user from to sp kv :
  Decision (report_filter user from to sp kv).
Proof. unfold report_filter; destruct sp; simpl; apply _. Defined.

(** [.order('start_time', { ascending: false })] *)
Definition later_first (a b : Id * Row) : bool :=
  start_time b.2 <? start_time a.2.

Definition query_time_entries (user : option UserId) (from to : Z)
    (selectedProject : option string) (tbl : Table) : list TimeEntry :=
  entry_of_row <$>
    sort_by later_first
      (map_to_list (filter (report_filter user from to selectedProject) tbl)).

(** [loadTimeEntries]: the next value of the [timeEntries] state. *)
Definition loadTimeEntries (link : bool) (user : option UserId)
    (dateRange : option Z * option Z) (selectedProject : option string)
    (tbl : Table) (timeEntries : list TimeEntry) : list TimeEntry :=
  match dateRange with
  | (Some from, Some to) =>
      if link then query_time_entries user from to selectedProject tbl
      else timeEntries
  | _ => timeEntries
  end.

(** [(entry.duration_minutes || 0) / 60] *)
Definition entry_hours (e : TimeEntry) : Q :=
  (inject_Z (or_zero (te_duration_minutes e)) / 60)%Q.

(** The accumulator of the two [reduce] calls, as the list of its values
    in the order the keys were created. *)
Fixpoint add_hours (key : string) (colour : string) (h : Q)
    (acc : list ChartData) : list ChartData :=
  match acc with
  | [] => [mkChartData key (0 + h)%Q colour]
  | c :: acc' =>
      if bool_decide (cd_name c = key)
      then mkChartData (cd_name c) (hours c + h)%Q (cd_color c) :: acc'
      else c :: add_hours key colour h acc'
  end.

Definition default_color : string := "#3B82F6".

(** [b.hours - a.hours < 0]: [a] sorts ahead of [b]. *)
Definition more_hours (a b : ChartData) : bool :=
  negb (Qle_bool (hours a) (hours b)).

Definition getProjectChartData (timeEntries : list TimeEntry)
    : list ChartData :=
  sort_by more_hours
    (fold_left (fun acc entry =>
                  add_hours (name (projects entry))
                            (or_else (color (projects entry)) default_color)
                            (entry_hours entry) acc)
               timeEntries []).

Definition getDailyChartData (timeEntries : list TimeEntry)
    : list ChartData :=
  fold_left (fun acc entry =>
               add_hours (format_MMM_dd (te_start_time entry))
                         "hsl(var(--primary))" (entry_hours entry) acc)
            timeEntries [].

Definition getTotalHours (timeEntries : list TimeEntry) : Q :=
  fold_left (fun total entry => (total + entry_hours entry)%Q) timeEntries 0%Q.

(** [csvData] of [exportToCsv] *)
Definition csvData (timeEntries : list TimeEntry) : list CsvRow :=
  (fun entry =>
     mkCsvRow (format_yyyy_MM_dd (te_start_time entry))
              (name (projects entry))
              (or_else (tasks entry) "No task")
              (toFixed2 (entry_hours entry))
              (or_else (te_description entry) EmptyString))
  <$> timeEntries.

End Reports.

(** *** [DashboardStats.loadStats] *)

(** The two queries of [loadStats] select [duration_minutes] of the user's
    entries that start at or after [since] and have a duration. *)
Definition stats_filter (user : option UserId) (since : Z)
    (kv : Id * Row) : Prop :=
  user = Some (user_id kv.2)
  ∧ of_ms since ≤ start_time kv.2
  ∧ duration_minutes kv.2 ≠ None.

#[global] Instance stats_filter_dec user since kv :
  Decision (stats_filter user since kv).
Proof. unfold stats_filter; apply _. Defined.

Definition query_durations (user : option UserId) (since : Z) (tbl : Table)
    : list (option Z) :=
  (fun kv : Id * Row => duration_minutes kv.2)
  <$> map_to_list (filter (stats_filter user since) tbl).

(** [(entries?.reduce((acc, entry) => acc + (entry.duration_minutes || 0), 0)
    || 0) / 60]; [entries] is null when the request fails. *)
Definition hours_of (entries : option (list (option Z))) : Q :=
  (inject_Z (default 0%Z ((fun l => fold_left (fun acc d => acc + or_zero d)%Z
                                            l 0%Z) <$> entries)) / 60)%Q.

(** [todayHours] and [weekHours] of [loadStats]; [startOfDay] and
    [startOfWeek] are the two [Date]s it builds from today's. *)
Definition loadStats (link : bool) (user : option UserId)
    (startOfDay startOfWeek : Z) (tbl : Table) : Q * Q :=
  let ask since :=
    if link then Some (query_durations user since tbl) else None in
  (hours_of (ask startOfDay), hours_of (ask startOfWeek)).

End Reports.

(** ** Concrete runs *)

Module Scenario.
Import Sql Js.

Definition alice : UserId := 1.

(** A timer component with a project selected. *)
Definition tracker : TimeTracker.State :=
  TimeTracker.mkState (Some alice) None "project-1" EmptyString
                      "writing" 0.

(** Alice starts a timer at 10:00:00 of day 0: entry 1. *)
Definition started : TimeTracker.State * Table * option TimeTracker.Toast :=
  TimeTracker.startTimer true 1 36000000 36000000000 tracker ∅.

(** The row that is stored, and the active entry the component keeps. *)
Definition running_row : Row :=
  mkRow alice "project-1" None (Some work) (Some "writing")
        36000000000 None None (Some true) 36000000000 36000000000.

Definition active : TimeTracker.TimeEntry :=
  TimeTracker.entry_of_row 1 running_row.

(** She stops it at 11:30:00. *)
Definition stopped : TimeTracker.State * Table * option TimeTracker.Toast :=
  TimeTracker.stopTimer true 41400000 41400000123 started.1.1 started.1.2.



(** Or her clock has been set back to 09:00:00 when she stops it. *)
Definition stopped_early
    : TimeTracker.State * Table * option TimeTracker.Toast :=
  TimeTracker.stopTimer true 32400000 36000500000 started.1.1 started.1.2.

(** A second tab, opened before the timer was started, starts one too:
    entry 2. *)
Definition started_twice
    : TimeTracker.State * Table * option TimeTracker.Toast :=
  TimeTracker.startTimer true 2 36060000 36060000000 tracker started.1.2.

(** The manual form on day 0, a project chosen. *)
Definition form : ManualTimeEntry.Form :=
  ManualTimeEntry.set_texts "project-1" EmptyString "review"
    (ManualTimeEntry.mount (Some alice) 0).

(** The end time is moved onto the start time, 09:00. *)
Definition form_empty_range : ManualTimeEntry.Form :=
  ManualTimeEntry.setEndTime (Some 540) form.

(** Start 10:00, end 09:00. *)
Definition form_reversed : ManualTimeEntry.Form :=
  ManualTimeEntry.setEndTime (Some 540)
    (ManualTimeEntry.setStartTime (Some 600) form).

(** Start 09:00, end 09:45. *)
Definition form_45 : ManualTimeEntry.Form :=
  ManualTimeEntry.setEndTime (Some 585) form.

(** The day before the epoch, duration-only mode, and a duration of
    0.00833332 hours: a little less than half a minute. *)
Definition form_1969 : ManualTimeEntry.Form :=
  ManualTimeEntry.setDuration (Some (833332 # 100000000))
    (ManualTimeEntry.setEntryMode ManualTimeEntry.duration_only
       (ManualTimeEntry.setDate (Some (-86400000)) form)).

Definition project_of (p : string) : Reports.ProjectRef :=
  Reports.mkProjectRef p None.

Definition task_title (t : string) : string := t.

Definition format_day (t : Instant) : string :=
  if t <? 86400000000 then "Jan 01" else "later".

End Scenario.

(** ** What the components display *)

Module Display.
Import Sql Js.

(** [new Date(activeEntry.start_time).getTime()]: the column is printed
    with its microseconds, of which a [Date] keeps the milliseconds. *)
Definition getTime (t : Instant) : Z := t / 1000.

(** The truth value of a nullable boolean: [null] is falsy. *)
Definition truthy (b : option bool) : bool := default false b.

(** One firing of the interval of the timer effect of [TimeTracker.tsx];
    [now_ms] is [new Date().getTime()].  The interval exists only while
    there is an active entry that is running. *)
Definition tick (now_ms : Z) (st : TimeTracker.State) : TimeTracker.State :=
  match TimeTracker.activeEntry st with
  | Some e =>
      if truthy (TimeTracker.te_is_running e) then
        TimeTracker.mkState (TimeTracker.user st) (TimeTracker.activeEntry st)
          (TimeTracker.selectedProject st) (TimeTracker.selectedTask st)
          (TimeTracker.st_description st)
          ((now_ms - getTime (TimeTracker.te_start_time e)) / 1000)
      else st
  | None => st
  end.

(** [s.padStart(2, '0')] *)
Definition padStart2 (s : string) : string :=
  match String.length s with
  | O => "00"
  | S O => "0" +:+ s
  | _ => s
  end.

(** The three numbers [formatTime] prints; [%] is the remainder that has
    the sign of the dividend. *)
Definition time_fields (seconds : Z) : Z * Z * Z :=
  let hours := seconds / 3600 in
  let minutes := Z.rem seconds 3600 / 60 in
  let secs := Z.rem seconds 60 in
  (hours, minutes, secs).

(** [formatTime] of [TimeTracker.tsx] *)
Definition formatTime (seconds : Z) : string :=
  let '(hours, minutes, secs) := time_fields seconds in
  padStart2 (pretty hours) +:+ ":" +:+ padStart2 (pretty minutes)
  +:+ ":" +:+ padStart2 (pretty secs).

(** [x.toFixed(1)] for [x >= 0], as text: the tenth nearest to [x], the
    larger one at a tie. *)
Definition toFixed1 (x : Q) : string :=
  let n := Qfloor (x * 10 + (1 # 2))%Q in
  pretty (n / 10) +:+ "." +:+ pretty (n mod 10).

(** [formatHours] of [DashboardStats.tsx] *)
Definition formatHours (hours : Q) : string :=
  if Qle_bool 1 hours then toFixed1 hours +:+ "h"
  else pretty (Math_round (hours * 60)) +:+ "m".

End Display.

(** ** Reading the charts *)

Module Charts.

(** The property names an empty object inherits.  [acc[name]] is truthy
    for them before any bar exists, so [getProjectChartData] creates no bar
    for a project of such a name; [Reports.add_hours] describes the
    accumulator for all other names. *)
Definition inherited_keys : list string :=
  [ "constructor"; "hasOwnProperty"; "isPrototypeOf";
    "propertyIsEnumerable"; "toLocaleString"; "toString"; "valueOf";
    "__defineGetter__"; "__defineSetter__"; "__lookupGetter__";
    "__lookupSetter__"; "__proto__" ].

(** The order of the project chart: no bar has more hours than the one
    before it. *)
Definition by_hours (a b : Reports.ChartData) : Prop :=
  (Reports.hours b <= Reports.hours a)%Q.

End Charts.

(** ** The dates of the dashboard *)

Module Dashboard.
Import Sql Js.

(** Local time is UTC plus the fixed offset [off], in milliseconds: no
    change of the offset falls into the week looked at. *)
Definition ms_per_day : Z := 86400000.

(** [today.getDay()], Sunday being 0; the epoch was a Thursday. *)
Definition getDay (off today : Z) : Z :=
  ((today + off) / ms_per_day + 4) mod 7.

(** [new Date(today.getFullYear(), today.getMonth(), today.getDate())] *)
Definition startOfDay (off today : Z) : Z :=
  today - (today + off) mod ms_per_day.

(** [startOfWeek = new Date(today);
     startOfWeek.setDate(today.getDate() - today.getDay())] *)
Definition startOfWeek (off today : Z) : Z :=
  today - getDay off today * ms_per_day.

(** [loadStats] at the instant [today]. *)
Definition loadStats (link : bool) (user : option UserId) (off today : Z)
    (tbl : Table) : Q * Q :=
  Reports.loadStats link user (startOfDay off today) (startOfWeek off today)
                    tbl.

(** The minutes the reduce of [loadStats] adds up, and those of all rows
    of a table. *)
Definition sum_minutes (l : list (option Z)) : Z :=
  fold_left (fun acc d => acc + or_zero d) l 0.

Definition minutes_of (m : Table) : Z :=
  sum_minutes ((fun kv : Id * Row => duration_minutes kv.2)
               <$> map_to_list m).

End Dashboard.

(** ** Referential actions on [time_entries] *)

Module Cascade.
Import Sql Js.

(** The UPDATE behind [ON DELETE SET NULL] of [task_id]. *)
Definition set_null_task : Update :=
  mkUpdate None (Some None) None None None None None None.

(** What the deletion of the task [t] does to [time_entries]
    ([task_id UUID REFERENCES public.tasks(id) ON DELETE SET NULL]): the
    referencing rows are updated, whoever owns them, and the BEFORE UPDATE
    triggers fire on them. *)
Definition delete_task (t : string) (now : Instant) (tbl : Table) : Table :=
  (fun r => if bool_decide (task_id r = Some t)
            then update_row set_null_task now r else r) <$> tbl.

End Cascade.

(** ** More concrete runs *)

Module Runs.
Import Sql Js.


(** The manual form as mounted, a project chosen, submitted as it is. *)
Definition submitted
    : ManualTimeEntry.Form * Table * ManualTimeEntry.Outcome :=
  ManualTimeEntry.handleSubmit true 5 77 Scenario.form ∅.

(** Three loaded entries of two projects: 30 and 90 minutes on one, 60
    on the other. *)
Definition loaded : list Reports.TimeEntry :=
  [ Reports.mkTimeEntry 3 "p1" None (Some 30) 300 None
      (Reports.mkProjectRef "Alpha" None) None;
    Reports.mkTimeEntry 2 "p2" None (Some 60) 200 None
      (Reports.mkProjectRef "Beta" (Some "#ff0000")) None;
    Reports.mkTimeEntry 1 "p1" None (Some 90) 100 None
      (Reports.mkProjectRef "Alpha" None) None ].

(** Sunday 4 January 1970, 10:00 UTC, and Monday, 10:00 UTC. *)
Definition sunday_10h : Z := 3 * 86400000 + 36000000.
Definition monday_10h : Z := 4 * 86400000 + 36000000.

(** A closed entry of thirty minutes from [start] (in milliseconds). *)
Definition half_hour (start : Z) (task : option string) : Row :=
  mkRow Scenario.alice "p1" task None None (of_ms start)
        (Some (of_ms (start + 1800000))) (Some 30) (Some false)
        (of_ms start) (of_ms start).

(** One entry, from 09:00 to 09:30 of that Sunday. *)
Definition sunday_table : Table :=
  {[ 1%nat := half_hour (3 * 86400000 + 32400000) (Some "t1") ]}.

End Runs.

(** * Proofs *)

Import Sql Js Lifecycle.

(** ** Duration arithmetic *)

Ltac euclid a d :=
  pose proof (Z.div_mod a d ltac:(lia));
  pose proof (Z.mod_pos_bound a d ltac:(lia));
  let q := fresh "q" in
  let r := fresh "r" in
  set (q := a / d) in *; set (r := a mod d) in *; clearbody q r.

Ltac euclid_lia :=
  repeat match goal with
         | |- context [?a / 120000000] => euclid a 120000000
         end;
  lia.

Lemma epoch_minutes_cases e s :
  (s <= e /\ epoch_minutes e s = (2 * (e - s) + 60000000) / 120000000)
  \/ (e < s /\ epoch_minutes e s = - ((2 * (s - e) + 60000000) / 120000000)).
Proof.
  unfold epoch_minutes, numeric_round_div, usec_per_minute.
  destruct (Z_le_gt_dec s e) as [H|H]; [left|right]; split; try lia.
  - destruct (Z.eq_dec e s) as [->|Hne].
    + rewrite Z.sub_diag. reflexivity.
    + rewrite Z.sgn_pos, Z.abs_eq by lia. rewrite Z.mul_1_l. reflexivity.
  - rewrite Z.sgn_neg, Z.abs_neq by lia.
    replace (- (e - s)) with (s - e) by lia.
    change (2 * 60000000) with 120000000. lia.
Qed.

Lemma epoch_minutes_nearest e s :
  2 * Z.abs (usec_per_minute * epoch_minutes e s - (e - s)) <= usec_per_minute.
Proof.
  unfold usec_per_minute.
  destruct (epoch_minutes_cases e s) as [[H ->]|[H ->]]; euclid_lia.
Qed.

Lemma epoch_minutes_mono a b s :
  a <= b -> epoch_minutes a s <= epoch_minutes b s.
Proof.
  intros Hab.
  destruct (epoch_minutes_cases a s) as [[Ha ->]|[Ha ->]];
  destruct (epoch_minutes_cases b s) as [[Hb ->]|[Hb ->]]; euclid_lia.
Qed.

Lemma epoch_minutes_close a b s :
  a <= b -> b - a < usec_per_minute ->
  epoch_minutes b s <= epoch_minutes a s + 1.
Proof.
  unfold usec_per_minute. intros Hab Hd.
  destruct (epoch_minutes_cases a s) as [[Ha ->]|[Ha ->]];
  destruct (epoch_minutes_cases b s) as [[Hb ->]|[Hb ->]]; euclid_lia.
Qed.

Lemma epoch_minutes_nonpos e s : e < s -> epoch_minutes e s <= 0.
Proof.
  intros H. destruct (epoch_minutes_cases e s) as [[Ha ->]|[Ha ->]]; euclid_lia.
Qed.

Lemma epoch_minutes_whole_minutes s m :
  epoch_minutes (s + usec_per_minute * m) s = m.
Proof.
  unfold usec_per_minute.
  destruct (epoch_minutes_cases (s + 60000000 * m) s) as [[Ha ->]|[Ha ->]]; euclid_lia.
Qed.

Lemma Qfloor_Qmake n d : Qfloor (n # d) = n / Z.pos d.
Proof. reflexivity. Qed.

Lemma epoch_minutes_Math_round e s :
  s <= e ->
  epoch_minutes e s = Math_round (inject_Z (e - s) / inject_Z usec_per_minute).
Proof.
  intros H. destruct (epoch_minutes_cases e s) as [[Ha ->]|[Ha _]]; [|lia].
  unfold Math_round, usec_per_minute.
  assert (E : (inject_Z (e - s) / inject_Z 60000000 + (1 # 2) == (2 * (e - s) + 60000000) # 120000000)%Q).
  { unfold Qeq, Qdiv, Qmult, Qplus, Qinv, inject_Z. simpl. lia. }
  rewrite E. reflexivity.
Qed.

(** ** The storage layer *)

(** *** The trigger *)

Lemma trigger_with_end OLD NEW now e :
  end_time NEW = Some e ->
  calculate_time_entry_duration OLD NEW now
  = set_is_running (Some false)
      (set_duration_minutes (Some (epoch_minutes e (start_time NEW))) NEW).
Proof.
  intros He. unfold calculate_time_entry_duration. rewrite He. simpl.
  rewrite He. destruct (OLD ≫= is_running) as [[]|]; reflexivity.
Qed.

(** The three conditions under which the second branch fires. *)
Lemma trigger_implicit_close OLD NEW now :
  end_time NEW = None -> is_running NEW = Some false ->
  is_running OLD = Some true ->
  calculate_time_entry_duration (Some OLD) NEW now
  = set_duration_minutes (Some (epoch_minutes now (start_time NEW)))
      (set_end_time (Some now) NEW).
Proof.
  intros He Hr Ho. unfold calculate_time_entry_duration.
  rewrite He. simpl. rewrite He, Hr, Ho. reflexivity.
Qed.

Lemma trigger_untouched OLD NEW now :
  end_time NEW = None ->
  (is_running NEW <> Some false \/ OLD ≫= is_running <> Some true) ->
  calculate_time_entry_duration OLD NEW now = NEW.
Proof.
  intros He H. unfold calculate_time_entry_duration. cbv zeta.
  rewrite He. simpl. rewrite He.
  destruct (is_running NEW) as [[]|], (OLD ≫= is_running) as [[]|];
    simpl; try reflexivity; destruct H; congruence.
Qed.

Lemma trigger_row_ok OLD NEW now :
  row_ok (calculate_time_entry_duration OLD NEW now).
Proof.
  intros e. unfold calculate_time_entry_duration.
  destruct (end_time NEW) as [e'|] eqn:He; simpl.
  - rewrite He. destruct (OLD ≫= is_running) as [[]|]; simpl; rewrite He;
      intros [= <-]; auto.
  - rewrite He.
    destruct (is_running NEW) as [[]|] eqn:Hr, (OLD ≫= is_running) as [[]|];
      simpl; rewrite ?He; try discriminate.
    intros [= <-]. auto.
Qed.

Lemma trigger_user_id OLD NEW now :
  user_id (calculate_time_entry_duration OLD NEW now) = user_id NEW.
Proof.
  unfold calculate_time_entry_duration.
  destruct (end_time NEW); simpl;
  match goal with |- context [if ?c then _ else _] => destruct c end;
  reflexivity.
Qed.

Lemma trigger_start_time OLD NEW now :
  start_time (calculate_time_entry_duration OLD NEW now) = start_time NEW.
Proof.
  unfold calculate_time_entry_duration.
  destruct (end_time NEW); simpl;
  match goal with |- context [if ?c then _ else _] => destruct c end;
  reflexivity.
Qed.


Lemma update_row_ok p now OLD : row_ok (update_row p now OLD).
Proof.
  unfold update_row, update_updated_at_column. intros e He.
  apply (trigger_row_ok (Some OLD) (apply_update p OLD) now e He).
Qed.

Lemma update_row_user_id p now OLD :
  user_id (update_row p now OLD) = user_id OLD.
Proof. unfold update_row; simpl. now rewrite trigger_user_id. Qed.

(** *** Statements *)

Lemma insert_inr auth uuid now p tbl r tbl' :
  insert_time_entry auth uuid now p tbl = inr (r, tbl') ->
  exists u, ins_user_id p = Some u /\ auth = Some u /\ tbl !! uuid = None
    /\ r = calculate_time_entry_duration None (row_of_insert u p now) now
    /\ tbl' = <[uuid := r]> tbl.
Proof.
  unfold insert_time_entry. destruct (ins_user_id p) as [u|]; [|discriminate].
  case_bool_decide; [|discriminate].
  destruct (tbl !! uuid) eqn:E; [discriminate|].
  intros [= <- <-]. eauto 10.
Qed.

Lemma insert_ok u uuid now p tbl :
  ins_user_id p = Some u -> tbl !! uuid = None ->
  insert_time_entry (Some u) uuid now p tbl
  = inr (calculate_time_entry_duration None (row_of_insert u p now) now,
         <[uuid := calculate_time_entry_duration None (row_of_insert u p now) now]> tbl).
Proof.
  intros Hu Hf. unfold insert_time_entry. rewrite Hu, Hf.
  rewrite bool_decide_eq_true_2; reflexivity.
Qed.

Lemma lookup_update auth i now p tbl j r' :
  update_time_entry auth i now p tbl !! j = Some r' ->
  tbl !! j = Some r'
  \/ exists r, tbl !! j = Some r /\ i = j /\ auth = Some (user_id r)
       /\ r' = update_row p now r.
Proof.
  unfold update_time_entry. rewrite lookup_alter_Some.
  intros [[-> (r & Hr & ->)]|[_ H]]; [|auto].
  case_bool_decide; eauto 10.
Qed.

Lemma lookup_update_own u i now p tbl r :
  tbl !! i = Some r -> user_id r = u ->
  update_time_entry (Some u) i now p tbl !! i = Some (update_row p now r).
Proof.
  intros Hr Hu. unfold update_time_entry.
  rewrite lookup_alter_eq, Hr. simpl.
  rewrite bool_decide_eq_true_2; congruence.
Qed.

Lemma statement_table_ok tbl tbl' :
  statement tbl tbl' -> table_ok tbl -> table_ok tbl'.
Proof.
  intros [auth uuid now p t r t' H|auth i now p t] Hok j rj Hj.
  - apply insert_inr in H as (u & _ & _ & _ & -> & ->).
    destruct (decide (uuid = j)) as [->|Hne].
    + rewrite lookup_insert_eq in Hj. injection Hj as <-. apply trigger_row_ok.
    + rewrite lookup_insert_ne in Hj by done. eauto.
  - apply lookup_update in Hj as [Hj|(r & Hr & _ & _ & ->)]; [eauto|].
    apply update_row_ok.
Qed.

Lemma stored_table_ok tbl : stored tbl -> table_ok tbl.
Proof.
  unfold stored. revert tbl. apply rtc_ind_r.
  - intros i r Hi. rewrite lookup_empty in Hi. discriminate.
  - eauto using statement_table_ok.
Qed.

(** ** The operations *)

(** *** Edits *)

Lemma edit_frame d c now r :
  row_ok r ->
  let r' := update_row (edit_payload d c) now r in
  start_time r' = start_time r /\ end_time r' = end_time r
  /\ duration_minutes r' = duration_minutes r
  /\ is_running r' = is_running r /\ user_id r' = user_id r.
Proof.
  intros Hok. unfold update_row, update_updated_at_column.
  destruct (end_time r) as [e|] eqn:He.
  - destruct (Hok e He) as [Hd Hr].
    rewrite (trigger_with_end _ _ _ e) by (simpl; exact He).
    simpl. rewrite He, Hd, Hr. auto.
  - rewrite trigger_untouched; simpl; rewrite ?He; auto.
    destruct (is_running r) as [[]|]; [left|right|left]; congruence.
Qed.

(** *** What the operations do to the table *)

Lemma startTimer_cases link uuid now_ms now st tbl :
  TimeTracker.startTimer link uuid now_ms now st tbl
    = (st, tbl, Some TimeTracker.Project_required)
  \/ TimeTracker.startTimer link uuid now_ms now st tbl
    = (st, tbl, Some TimeTracker.Error_starting_timer)
  \/ exists r tbl',
      insert_time_entry (TimeTracker.user st) uuid now
        (TimeTracker.start_payload st now_ms) tbl = inr (r, tbl')
      /\ TimeTracker.startTimer link uuid now_ms now st tbl
         = (TimeTracker.mkState (TimeTracker.user st)
              (Some (TimeTracker.entry_of_row uuid r))
              (TimeTracker.selectedProject st) (TimeTracker.selectedTask st)
              (TimeTracker.st_description st) (TimeTracker.elapsedTime st),
            tbl', Some TimeTracker.Timer_started).
Proof.
  unfold TimeTracker.startTimer. case_bool_decide; [auto|].
  destruct link; simpl; [|auto].
  destruct (insert_time_entry _ _ _ _ _) as [err|[r tbl']] eqn:E; [auto|].
  right; right. eauto.
Qed.

Lemma stopTimer_cases link now_ms now st tbl :
  TimeTracker.stopTimer link now_ms now st tbl = (st, tbl, None)
  \/ TimeTracker.stopTimer link now_ms now st tbl
     = (st, tbl, Some TimeTracker.Error_stopping_timer)
  \/ exists e, TimeTracker.activeEntry st = Some e
     /\ TimeTracker.stopTimer link now_ms now st tbl
        = (TimeTracker.mkState (TimeTracker.user st) None
             (TimeTracker.selectedProject st) (TimeTracker.selectedTask st)
             EmptyString 0,
           update_time_entry (TimeTracker.user st) (TimeTracker.id e) now
             (TimeTracker.stop_payload st now_ms) tbl,
           Some TimeTracker.Timer_stopped).
Proof.
  unfold TimeTracker.stopTimer.
  destruct (TimeTracker.activeEntry st) as [e|]; [|auto].
  destruct link; eauto.
Qed.

Lemma handleSubmit_cases link uuid now f tbl :
  (ManualTimeEntry.handleSubmit link uuid now f tbl).1.2 = tbl
  \/ exists dm s e r tbl',
      ManualTimeEntry.durationMinutes f = Some dm
      /\ Qle_bool dm 0 = false
      /\ ManualTimeEntry.startDateTime f = Some s
      /\ ManualTimeEntry.endDateTime f dm = Some e
      /\ insert_time_entry (ManualTimeEntry.user f) uuid now
           (ManualTimeEntry.submit_payload f dm s e) tbl = inr (r, tbl')
      /\ ManualTimeEntry.handleSubmit link uuid now f tbl
         = (ManualTimeEntry.rerender (ManualTimeEntry.setLoading true f)
              (ManualTimeEntry.setLoading false
                 (ManualTimeEntry.reset_form
                    (ManualTimeEntry.setLoading true f))),
            tbl', ManualTimeEntry.Toasted ManualTimeEntry.Time_entry_added).
Proof.
  unfold ManualTimeEntry.handleSubmit. case_bool_decide; [now left|].
  destruct (ManualTimeEntry.durationMinutes f) as [dm|] eqn:Ed; [|now left].
  destruct (Qle_bool dm 0) eqn:Hdm; [now left|].
  destruct (ManualTimeEntry.startDateTime f) as [s|] eqn:Es; [|now left].
  destruct (ManualTimeEntry.endDateTime f dm) as [e|] eqn:Ee; [|now left].
  destruct link; simpl; [|now left].
  destruct (insert_time_entry _ _ _ _ _) as [err|[r tbl']] eqn:E; [now left|].
  right. exists dm, s, e, r, tbl'. auto 10.
Qed.

(** Every lifecycle operation is one statement, or none. *)
Lemma step_statement actor tbl tbl' :
  step actor tbl tbl' -> tbl' = tbl \/ statement tbl tbl'.
Proof.
  intros [link uuid now_ms now st t|link now_ms now st t|link uuid now f t
         |auth i now d c t].
  - destruct (startTimer_cases link uuid now_ms now st t)
      as [->|[->|(r & t' & Hi & ->)]]; auto.
    right. eapply stmt_insert, Hi.
  - destruct (stopTimer_cases link now_ms now st t)
      as [->|[->|(e & _ & ->)]]; auto.
    right. apply stmt_update.
  - destruct (handleSubmit_cases link uuid now f t)
      as [->|(dm & s & e & r & t' & _ & _ & _ & _ & Hi & ->)]; auto.
    right. eapply stmt_insert, Hi.
  - right. apply stmt_update.
Qed.

Lemma reachable_stored tbl : reachable tbl -> stored tbl.
Proof.
  unfold reachable, stored. revert tbl. apply rtc_ind_r.
  - apply rtc_refl.
  - intros t t' _ [actor Hs] IH.
    destruct (step_statement _ _ _ Hs) as [->|H]; [assumption|].
    eapply rtc_r; eassumption.
Qed.

(** *** I1 *)

Lemma insert_started st now_ms now u :
  TimeTracker.user st = Some u ->
  calculate_time_entry_duration None
    (row_of_insert u (TimeTracker.start_payload st now_ms) now) now
  = row_of_insert u (TimeTracker.start_payload st now_ms) now.
Proof. intros _. apply trigger_untouched; simpl; auto. Qed.

Lemma step_no_end_no_duration actor tbl tbl' :
  step actor tbl tbl' -> table_ok tbl ->
  no_end_no_duration tbl -> no_end_no_duration tbl'.
Proof.
  intros [link uuid now_ms now st t|link now_ms now st t|link uuid now f t
         |auth i now d c t] Hok Hinv j rj Hj Hend.
  - destruct (startTimer_cases link uuid now_ms now st t)
      as [E|[E|(r & t' & Hi & E)]]; rewrite E in Hj; simpl in Hj; eauto.
    apply insert_inr in Hi as (u & Hu & _ & _ & -> & ->).
    destruct (decide (uuid = j)) as [->|Hne].
    + rewrite lookup_insert_eq in Hj. injection Hj as <-.
      rewrite trigger_untouched; simpl; auto.
    + rewrite lookup_insert_ne in Hj by done. eauto.
  - destruct (stopTimer_cases link now_ms now st t)
      as [E|[E|(e & _ & E)]]; rewrite E in Hj; simpl in Hj; eauto.
    apply lookup_update in Hj as [Hj|(r & Hr & _ & _ & ->)]; [eauto|].
    unfold update_row in Hend; simpl in Hend.
    rewrite (trigger_with_end _ _ _ (of_ms now_ms)) in Hend by reflexivity.
    discriminate.
  - destruct (handleSubmit_cases link uuid now f t)
      as [E|(dm & s & e & r & t' & _ & _ & _ & _ & Hi & E)];
      rewrite E in Hj; simpl in Hj; eauto.
    apply insert_inr in Hi as (u & Hu & _ & _ & -> & ->).
    destruct (decide (uuid = j)) as [->|Hne].
    + rewrite lookup_insert_eq in Hj. injection Hj as <-.
      rewrite (trigger_with_end _ _ _ (of_ms e)) in Hend by reflexivity.
      discriminate.
    + rewrite lookup_insert_ne in Hj by done. eauto.
  - apply lookup_update in Hj as [Hj|(r & Hr & _ & _ & ->)]; [eauto|].
    destruct (edit_frame d c now r (Hok _ _ Hr)) as (_ & He & Hd & _).
    rewrite Hd. rewrite He in Hend. eauto.
Qed.

Lemma reachable_no_end_no_duration tbl :
  reachable tbl -> no_end_no_duration tbl.
Proof.
  intros H. pose proof H as H'. revert tbl H H'.
  unfold reachable at 1. apply (rtc_ind_r (fun t => reachable t -> no_end_no_duration t)).
  - intros _ i r Hi. rewrite lookup_empty in Hi. discriminate.
  - intros t t' Ht [actor Hs] IH _.
    eapply step_no_end_no_duration; eauto.
    apply stored_table_ok, reachable_stored, Ht.
Qed.

(** *** One session per owner *)


(** The stop payload closes the row it reaches. *)
Lemma stop_row st now_ms now r :
  update_row (TimeTracker.stop_payload st now_ms) now r
  = set_updated_at now
      (set_is_running (Some false)
         (set_duration_minutes
            (Some (epoch_minutes (of_ms now_ms) (start_time r)))
            (apply_update (TimeTracker.stop_payload st now_ms) r))).
Proof.
  unfold update_row, update_updated_at_column.
  now rewrite (trigger_with_end _ _ _ (of_ms now_ms)) by reflexivity.
Qed.

(** A manual entry is stored closed. *)
Lemma submit_row f dm s e u now :
  calculate_time_entry_duration None
    (row_of_insert u (ManualTimeEntry.submit_payload f dm s e) now) now
  = set_is_running (Some false)
      (set_duration_minutes (Some (epoch_minutes (of_ms e) (of_ms s)))
         (row_of_insert u (ManualTimeEntry.submit_payload f dm s e) now)).
Proof. now rewrite (trigger_with_end _ _ _ (of_ms e)) by reflexivity. Qed.




(** *** A call is its request followed by its answer *)








(** *** The manual form *)

Section ManualForm.
Import ManualTimeEntry.

Lemma duration_derived_ext f g :
  entryMode g = entryMode f -> date g = date f ->
  startTime g = startTime f -> endTime g = endTime f ->
  duration g = duration f \/ duration g = None ->
  duration_derived f -> duration_derived g.
Proof.
  unfold duration_derived. intros -> -> -> -> Hd H Hm s e Hs He Hlt.
  destruct Hd as [->| ->]; eauto.
Qed.

Lemma calculate_duration_derived f : duration_derived (calculate_duration f).
Proof.
  unfold calculate_duration, duration_derived.
  destruct (entryMode f) eqn:Em; [|simpl; congruence].
  destruct (startTime f) as [a|] eqn:Ea;
    [|simpl; rewrite Ea; unfold date_at; destruct (date f); discriminate].
  destruct (endTime f) as [b|] eqn:Eb;
    [|simpl; rewrite ?Ea, Eb; unfold date_at; destruct (date f); discriminate].
  destruct (date_at (date f) (Some a)) as [s0|] eqn:Es;
    [|simpl; rewrite Ea, Es; discriminate].
  destruct (date_at (date f) (Some b)) as [e0|] eqn:Ee;
    [|simpl; rewrite Ea, Eb, Ee; discriminate].
  destruct (e0 >? s0) eqn:Hgt; simpl; rewrite ?Ea, ?Eb, Es, Ee;
    intros _ s e [= <-] [= <-] Hlt; [now right|lia].
Qed.

Lemma same_deps_true f g :
  same_deps f g = true ->
  startTime f = startTime g /\ endTime f = endTime g
  /\ date f = date g /\ entryMode f = entryMode g.
Proof.
  unfold same_deps. rewrite !andb_true_iff, !bool_decide_eq_true. tauto.
Qed.

Lemma rerender_derived f g :
  duration_derived f -> duration g = duration f \/ duration g = None ->
  duration_derived (rerender f g).
Proof.
  intros Hf Hd. unfold rerender. destruct (same_deps f g) eqn:E.
  - apply same_deps_true in E as (? & ? & ? & ?).
    apply (duration_derived_ext f); auto.
  - apply calculate_duration_derived.
Qed.

Lemma form_step_derived f g :
  form_step f g -> duration_derived f -> duration_derived g.
Proof.
  intros [p t d f0|v f0|v f0|v f0|v f0 Hm|v f0|link uuid now f0 tbl] Hf.
  - apply (duration_derived_ext f0); auto.
  - apply rerender_derived; auto.
  - apply rerender_derived; auto.
  - apply rerender_derived; auto.
  - intros Hm'. simpl in Hm'. congruence.
  - apply rerender_derived; auto.
  - unfold handleSubmit. case_bool_decide; [assumption|].
    destruct (durationMinutes f0) as [dm|]; [|assumption].
    destruct (Qle_bool dm 0); [assumption|].
    destruct (startDateTime f0) as [s|];
      [|apply (duration_derived_ext f0); auto].
    destruct (endDateTime f0 dm) as [e|];
      [|apply (duration_derived_ext f0); auto].
    destruct (request link _) as [err|[r tbl']]; simpl.
    + apply (duration_derived_ext f0); auto.
    + apply rerender_derived; [|auto].
      apply (duration_derived_ext f0); auto.
Qed.

Lemma form_reachable_derived f : form_reachable f -> duration_derived f.
Proof.
  intros (u & today & H). revert f H. apply rtc_ind_r.
  - apply calculate_duration_derived.
  - eauto using form_step_derived.
Qed.

(** *** The client's own duration against the trigger's *)

(** Start/end mode: the hours printed with two decimals give back the
    whole minutes between the two times. *)
Lemma round_trip_whole_minutes m :
  0 <= m ->
  Math_round (toFixed2 (inject_Z (60000 * m) / inject_Z (1000 * 60 * 60)) * 60)
  = m.
Proof.
  intros Hm. unfold Math_round, toFixed2.
  assert (E1 : (inject_Z (60000 * m) / inject_Z (1000 * 60 * 60) * 100 + (1 # 2)
                == (10 * m + 3) # 6)%Q).
  { unfold Qeq, Qdiv, Qmult, Qplus, Qinv, inject_Z. simpl. lia. }
  rewrite E1. change (Qfloor ((10 * m + 3) # 6)) with ((10 * m + 3) / 6).
  set (n := (10 * m + 3) / 6).
  assert (E2 : ((n # 100) * 60 + (1 # 2) == (12 * n + 10) # 20)%Q).
  { unfold Qeq, Qmult, Qplus. simpl. lia. }
  rewrite E2. change (Qfloor ((12 * n + 10) # 20)) with ((12 * n + 10) / 20).
  subst n. euclid (10 * m + 3) 6.
  match goal with |- ?a / 20 = _ => euclid a 20 end. lia.
Qed.

Lemma date_at_Some d hm t :
  date_at d hm = Some t ->
  exists d0 m, d = Some d0 /\ hm = Some m /\ 0 <= m < 1440
               /\ t = d0 + 60000 * m.
Proof.
  unfold date_at. destruct d as [d0|], hm as [m|]; try discriminate.
  destruct (andb _ _) eqn:E; [|discriminate]. intros [= <-].
  apply andb_true_iff in E as [H1 H2]. exists d0, m. repeat split; lia.
Qed.

End ManualForm.


Lemma time_clip_whole_inv x z e :
  (x == inject_Z z)%Q -> time_clip x = Some e -> e = z.
Proof.
  intros Hx He. unfold time_clip in He.
  assert (Hf : Qfloor x = z) by (rewrite Hx; apply Qfloor_Z).
  assert (Hc : Qceiling x = z) by (rewrite Hx; apply Qceiling_Z).
  rewrite Hf, Hc in He.
  destruct (Qle_bool 0 x), (Z.abs z <=? 8640000000000000);
    congruence.
Qed.

(** The client's own duration and the trigger's in the start/end mode,
    for a submission the form lets through. *)
Lemma manual_range_duration_agrees f dm s e :
  ManualTimeEntry.duration_derived f ->
  ManualTimeEntry.entryMode f = ManualTimeEntry.time_range ->
  ManualTimeEntry.durationMinutes f = Some dm ->
  ManualTimeEntry.startDateTime f = Some s ->
  ManualTimeEntry.endDateTime f dm = Some e ->
  s < e ->
  Math_round dm = epoch_minutes (of_ms e) (of_ms s).
Proof.
  intros Hder Em Hdm Hs He Hrange.
  unfold ManualTimeEntry.startDateTime, ManualTimeEntry.endDateTime in *.
  unfold ManualTimeEntry.durationMinutes in Hdm.
  destruct (ManualTimeEntry.duration f) as [h|] eqn:Eh; [|discriminate].
  injection Hdm as <-.
  rewrite Em in Hs, He. cbv iota in Hs, He.
  destruct (Hder Em s e Hs He Hrange) as [Hn|Hd]; [congruence|].
  rewrite Eh in Hd. injection Hd as ->.
  apply date_at_Some in Hs as (d0 & a & Hd0 & _ & _ & ->).
  apply date_at_Some in He as (d1 & b & Hd1 & _ & _ & ->).
  assert (d1 = d0) as -> by congruence.
  replace (d0 + 60000 * b - (d0 + 60000 * a)) with (60000 * (b - a)) by lia.
  rewrite round_trip_whole_minutes by lia.
  unfold of_ms.
  replace (1000 * (d0 + 60000 * b))
    with (1000 * (d0 + 60000 * a) + usec_per_minute * (b - a))
    by (unfold usec_per_minute; lia).
  now rewrite epoch_minutes_whole_minutes.
Qed.

(** The same in the duration-only mode, for a duration of [k] quarter
    hours: every value on the way is a whole number. *)
Lemma manual_quarter_hours_agree f dm s e k :
  ManualTimeEntry.entryMode f = ManualTimeEntry.duration_only ->
  (dm == inject_Z (15 * k))%Q ->
  ManualTimeEntry.startDateTime f = Some s ->
  ManualTimeEntry.endDateTime f dm = Some e ->
  e = s + 60000 * (15 * k)
  /\ Math_round dm = epoch_minutes (of_ms e) (of_ms s).
Proof.
  intros Em Hdm Hs He.
  unfold ManualTimeEntry.endDateTime in He. rewrite Em, Hs in He.
  change (time_clip (inject_Z s + dm * 60 * 1000) = Some e) in He.
  apply (time_clip_whole_inv _ (s + 60000 * (15 * k))) in He.
  2:{ rewrite Hdm, !inject_Z_plus, !inject_Z_mult.
      change (inject_Z 60000) with 60000%Q. ring. }
  split; [exact He|]. subst e.
  unfold Math_round.
  assert (E : (dm + (1 # 2) == (2 * (15 * k) + 1) # 2)%Q).
  { rewrite Hdm. unfold Qeq, Qplus, inject_Z. simpl. lia. }
  rewrite E. unfold Qfloor, of_ms.
  replace (1000 * (s + 60000 * (15 * k)))
    with (1000 * s + usec_per_minute * (15 * k))
    by (unfold usec_per_minute; lia).
  rewrite epoch_minutes_whole_minutes.
  euclid (2 * (15 * k) + 1) 2. lia.
Qed.

(** ** The reports *)

Lemma elem_of_insert_sorted {A} (before : A -> A -> bool) x y l :
  x ∈ Reports.insert_sorted before y l <-> x = y \/ x ∈ l.
Proof.
  induction l as [|z l IH]; simpl.
  - rewrite list_elem_of_singleton, elem_of_nil. tauto.
  - destruct (before z y); rewrite !elem_of_cons, ?IH; tauto.
Qed.

Lemma elem_of_sort_by {A} (before : A -> A -> bool) x l :
  x ∈ Reports.sort_by before l <-> x ∈ l.
Proof.
  unfold Reports.sort_by. induction l as [|y l IH]; simpl; [tauto|].
  now rewrite elem_of_insert_sorted, elem_of_cons, IH.
Qed.

Lemma report_filter_needs_duration user from to sp (i : Id) r :
  duration_minutes r = None -> ~ Reports.report_filter user from to sp (i, r).
Proof. intros Hd (_ & _ & _ & H & _). now apply H. Qed.

Lemma stats_filter_needs_duration user since (i : Id) r :
  duration_minutes r = None -> ~ Reports.stats_filter user since (i, r).
Proof. intros Hd (_ & _ & H). now apply H. Qed.

Lemma query_time_entries_delete project_of task_title user from to sp
    (tbl : Table) i r :
  tbl !! i = Some r -> duration_minutes r = None ->
  Reports.query_time_entries project_of task_title user from to sp tbl
  = Reports.query_time_entries project_of task_title user from to sp
      (delete i tbl).
Proof.
  intros Hi Hd. unfold Reports.query_time_entries.
  rewrite map_filter_delete_not; [reflexivity|].
  intros y Hy. rewrite Hi in Hy. injection Hy as <-.
  now apply report_filter_needs_duration.
Qed.

Lemma query_durations_delete user since (tbl : Table) i r :
  tbl !! i = Some r -> duration_minutes r = None ->
  Reports.query_durations user since tbl
  = Reports.query_durations user since (delete i tbl).
Proof.
  intros Hi Hd. unfold Reports.query_durations.
  rewrite map_filter_delete_not; [reflexivity|].
  intros y Hy. rewrite Hi in Hy. injection Hy as <-.
  now apply stats_filter_needs_duration.
Qed.

Lemma elem_of_query_time_entries project_of task_title user from to sp
    (tbl : Table) e :
  e ∈ Reports.query_time_entries project_of task_title user from to sp tbl ->
  exists r, tbl !! Reports.id e = Some r
            /\ Reports.te_duration_minutes e = duration_minutes r
            /\ duration_minutes r <> None.
Proof.
  unfold Reports.query_time_entries. rewrite list_elem_of_fmap.
  intros ([j r] & -> & Hin).
  apply elem_of_sort_by, elem_of_map_to_list, map_lookup_filter_Some in Hin.
  destruct Hin as (Hj & _ & _ & _ & Hd & _). simpl in *. eauto.
Qed.

(** ** The concrete runs *)

Lemma started_reachable : reachable Scenario.started.1.2.
Proof.
  apply rtc_once. exists (Some Scenario.alice).
  exact (step_startTimer true 1 36000000 36000000000 Scenario.tracker ∅).
Qed.

Lemma stopped_reachable : reachable Scenario.stopped.1.2.
Proof.
  eapply rtc_r; [apply started_reachable|]. exists (Some Scenario.alice).
  exact (step_stopTimer true 41400000 41400000123
           Scenario.started.1.1 Scenario.started.1.2).
Qed.

Lemma started_twice_reachable : reachable Scenario.started_twice.1.2.
Proof.
  eapply rtc_r; [apply started_reachable|]. exists (Some Scenario.alice).
  exact (step_startTimer true 2 36060000 36060000000
           Scenario.tracker Scenario.started.1.2).
Qed.

Lemma form_reachable_form : ManualTimeEntry.form_reachable Scenario.form.
Proof.
  exists (Some Scenario.alice), 0. apply rtc_once.
  apply ManualTimeEntry.fs_texts.
Qed.

Lemma form_reachable_empty_range :
  ManualTimeEntry.form_reachable Scenario.form_empty_range.
Proof.
  destruct form_reachable_form as (u & today & H). exists u, today.
  eapply rtc_r; [exact H|]. apply ManualTimeEntry.fs_endTime.
Qed.

Lemma form_reachable_reversed :
  ManualTimeEntry.form_reachable Scenario.form_reversed.
Proof.
  destruct form_reachable_form as (u & today & H). exists u, today.
  eapply rtc_r; [eapply rtc_r; [exact H|]|].
  - apply ManualTimeEntry.fs_startTime.
  - apply ManualTimeEntry.fs_endTime.
Qed.

Lemma form_reachable_45 : ManualTimeEntry.form_reachable Scenario.form_45.
Proof.
  destruct form_reachable_form as (u & today & H). exists u, today.
  eapply rtc_r; [exact H|]. apply ManualTimeEntry.fs_endTime.
Qed.

(** ** Main results *)

(** C1, as amended.  Whatever a client sends, an entry the store holds
    with an end instant has [duration_minutes] equal to the trigger's
    value: (end - start) in minutes rounded to the nearest integer, which
    for end >= start is [Math.round] of the same quotient.  The stop path
    sends no duration of its own.  The value the manual form sends,
    [Math.round(hours * 60)], equals the trigger's in the start/end mode
    when end > start, and in the duration-only mode when the duration is a
    whole number of quarter hours, the step of the field, whose minutes
    are within the range of the INTEGER column. *)
Theorem duration_is_the_trigger_rounding :
  (forall (tbl : Table) i r e,
      stored tbl -> tbl !! i = Some r -> end_time r = Some e ->
      duration_minutes r = Some (epoch_minutes e (start_time r))
      /\ 2 * Z.abs (usec_per_minute * epoch_minutes e (start_time r)
                    - (e - start_time r)) <= usec_per_minute
      /\ (start_time r <= e ->
          epoch_minutes e (start_time r)
          = Math_round (inject_Z (e - start_time r)
                        / inject_Z usec_per_minute)))
  /\ (forall st now_ms,
         upd_duration_minutes (TimeTracker.stop_payload st now_ms) = None)
  /\ (forall f dm s e,
         ManualTimeEntry.form_reachable f ->
         ManualTimeEntry.durationMinutes f = Some dm ->
         Qle_bool dm 0 = false ->
         ManualTimeEntry.startDateTime f = Some s ->
         ManualTimeEntry.endDateTime f dm = Some e ->
         (ManualTimeEntry.entryMode f = ManualTimeEntry.time_range -> s < e) ->
         (ManualTimeEntry.entryMode f = ManualTimeEntry.duration_only ->
          exists k, (dm == inject_Z (15 * k))%Q /\ 15 * k <= 2147483647) ->
         ins_duration_minutes (ManualTimeEntry.submit_payload f dm s e)
         = Some (epoch_minutes (of_ms e) (of_ms s))).
Proof.
  split; [|split].
  - intros tbl i r e Hst Hi He.
    destruct (stored_table_ok tbl Hst i r Hi e He) as [Hd _].
    split; [exact Hd|]. split; [apply epoch_minutes_nearest|].
    apply epoch_minutes_Math_round.
  - reflexivity.
  - intros f dm s e Hf Hdm Hpos Hs He Hr Hq. simpl. f_equal.
    destruct (ManualTimeEntry.entryMode f) eqn:Em.
    + eapply manual_range_duration_agrees;
        eauto using form_reachable_derived.
    + destruct (Hq eq_refl) as (k & Hk & _).
      eapply manual_quarter_hours_agree; eauto.
Qed.

Lemma duration_is_the_trigger_rounding_witness :
  (exists r, Scenario.stopped.1.2 !! 1%nat = Some r
             /\ duration_minutes r = Some 90)
  /\ ins_duration_minutes
       (ManualTimeEntry.submit_payload Scenario.form_45 (4500 # 100)
          32400000 35100000)
     = Some 45.
Proof.
  split.
  - eexists. split; [vm_compute; reflexivity|].
    refine (proj1 (proj1 duration_is_the_trigger_rounding
                     Scenario.stopped.1.2 1%nat _ 41400000000
                     (reachable_stored _ stopped_reachable) _ _)).
    + vm_compute; reflexivity.
    + reflexivity.
  - refine (proj2 (proj2 duration_is_the_trigger_rounding)
              Scenario.form_45 (4500 # 100) 32400000 35100000
              form_reachable_45 _ _ _ _ _ _).
    + vm_compute. reflexivity.
    + reflexivity.
    + reflexivity.
    + reflexivity.
    + intros _. lia.
    + intros H. discriminate H.
Defined.

(** C1, counterexample.  On the form as mounted (09:00 to 10:00, duration
    text 1.00) the end time is moved to 09:00.  The range is empty, the
    effect leaves the duration text alone, and [handleSubmit] sends
    [duration_minutes = 60] for a pair with end >= start while the trigger
    computes, and stores, 0. *)
Lemma stale_duration_differs_from_trigger :
  ManualTimeEntry.form_reachable Scenario.form_empty_range
  /\ exists dm s e,
      ManualTimeEntry.durationMinutes Scenario.form_empty_range = Some dm
      /\ ManualTimeEntry.startDateTime Scenario.form_empty_range = Some s
      /\ ManualTimeEntry.endDateTime Scenario.form_empty_range dm = Some e
      /\ s <= e
      /\ ins_duration_minutes
           (ManualTimeEntry.submit_payload Scenario.form_empty_range dm s e)
         = Some 60
      /\ epoch_minutes (of_ms e) (of_ms s) = 0
      /\ exists r,
          (ManualTimeEntry.handleSubmit true 5 77
             Scenario.form_empty_range ∅).1.2 !! 5%nat = Some r
          /\ duration_minutes r = Some 0.
Proof.
  split; [apply form_reachable_empty_range|].
  exists (6000 # 100)%Q, 32400000, 32400000.
  split; [vm_compute; reflexivity|].
  split; [vm_compute; reflexivity|].
  split; [vm_compute; reflexivity|].
  split; [lia|].
  split; [vm_compute; reflexivity|].
  split; [vm_compute; reflexivity|].
  eexists. split; vm_compute; reflexivity.
Qed.

(** In the duration-only mode with a duration that is no whole number
    of quarter hours the two values can differ.  The form rounds the
    minutes typed, the trigger the whole milliseconds between the two
    instants, and a [Date] before the epoch drops the fraction of a
    millisecond towards the later instant: on the day before the epoch,
    0.00833332 hours are sent as 0 minutes and stored as 1. *)
Lemma duration_only_before_epoch_differs :
  exists dm s e r,
    ManualTimeEntry.durationMinutes Scenario.form_1969 = Some dm
    /\ ManualTimeEntry.startDateTime Scenario.form_1969 = Some s
    /\ ManualTimeEntry.endDateTime Scenario.form_1969 dm = Some e
    /\ s < 0 /\ s <= e
    /\ ins_duration_minutes
         (ManualTimeEntry.submit_payload Scenario.form_1969 dm s e) = Some 0
    /\ (ManualTimeEntry.handleSubmit true 5 77 Scenario.form_1969 ∅).1.2
         !! 5%nat = Some r
    /\ duration_minutes r = Some 1.
Proof.
  exists (49999920 # 100000000)%Q, (-54000000), (-53970000).
  eexists. repeat split; try (vm_compute; reflexivity); lia.
Qed.

(** C2: the code at the failing input.  Start 10:00, end 09:00, the
    duration text still 1.00 from the mounted form: [handleSubmit] inserts
    the entry, and the store keeps it with a duration of -60 minutes. *)
Theorem reversed_range_is_persisted :
  ManualTimeEntry.form_reachable Scenario.form_reversed
  /\ ManualTimeEntry.startDateTime Scenario.form_reversed = Some 36000000
  /\ ManualTimeEntry.endDateTime Scenario.form_reversed (6000 # 100)
     = Some 32400000
  /\ (ManualTimeEntry.handleSubmit true 5 77 Scenario.form_reversed ∅).2
     = ManualTimeEntry.Toasted ManualTimeEntry.Time_entry_added
  /\ exists r,
      (ManualTimeEntry.handleSubmit true 5 77 Scenario.form_reversed ∅).1.2
        !! 5%nat = Some r
      /\ start_time r = of_ms 36000000
      /\ end_time r = Some (of_ms 32400000)
      /\ duration_minutes r = Some (-60)
      /\ is_running r = Some false.
Proof.
  split; [apply form_reachable_reversed|].
  repeat split; try (vm_compute; reflexivity).
  eexists. repeat split; vm_compute; reflexivity.
Qed.




(** C4, counterexample.  The timer was started at 10:00:00; when it is
    stopped the client clock reads 09:00:00.  Nothing rejects the update:
    the entry is closed, with a duration of -60 minutes. *)
Lemma stop_before_start_is_not_rejected :
  exists e r r',
    TimeTracker.activeEntry Scenario.started.1.1 = Some e
    /\ Scenario.started.1.2 !! TimeTracker.id e = Some r
    /\ is_running r = Some true
    /\ of_ms 32400000 < start_time r
    /\ Scenario.stopped_early.1.2 !! TimeTracker.id e = Some r'
    /\ duration_minutes r' = Some (-60)
    /\ ~ (is_running r' = Some true /\ end_time r' = None
          /\ duration_minutes r' = None).
Proof.
  do 3 eexists. repeat split; try (vm_compute; reflexivity).
  vm_compute. intros (H & _). discriminate.
Qed.

(** C4, as amended.  For a running entry and an end instant before its
    start, the stop operation is carried out like any other: the entry is
    closed, its end is the instant supplied, and the duration stored is
    the rounded quotient, which is zero or negative. *)
Theorem stop_before_start_closes_the_entry st (tbl : Table) e r now_ms now :
  TimeTracker.activeEntry st = Some e ->
  tbl !! TimeTracker.id e = Some r ->
  TimeTracker.user st = Some (user_id r) ->
  is_running r = Some true ->
  of_ms now_ms < start_time r ->
  (TimeTracker.stopTimer true now_ms now st tbl).2
  = Some TimeTracker.Timer_stopped
  /\ exists r' d,
      (TimeTracker.stopTimer true now_ms now st tbl).1.2
        !! TimeTracker.id e = Some r'
      /\ is_running r' = Some false
      /\ end_time r' = Some (of_ms now_ms)
      /\ duration_minutes r' = Some d
      /\ d = epoch_minutes (of_ms now_ms) (start_time r)
      /\ d <= 0.
Proof.
  intros Ha Hr Hu _ Hlt. unfold TimeTracker.stopTimer. rewrite Ha. simpl.
  split; [reflexivity|]. do 2 eexists. split.
  - rewrite Hu. apply lookup_update_own; [exact Hr|reflexivity].
  - rewrite stop_row. simpl. repeat split.
    now apply epoch_minutes_nonpos.
Qed.

Lemma stop_before_start_closes_the_entry_witness :
  Scenario.stopped_early.2 = Some TimeTracker.Timer_stopped
  /\ exists r' d,
      Scenario.stopped_early.1.2 !! 1%nat = Some r'
      /\ is_running r' = Some false
      /\ end_time r' = Some 32400000000
      /\ duration_minutes r' = Some d
      /\ d = -60
      /\ d <= 0.
Proof.
  refine (stop_before_start_closes_the_entry
            Scenario.started.1.1 Scenario.started.1.2
            Scenario.active Scenario.running_row
            32400000 36000500000 _ _ _ _ _).
  - reflexivity.
  - vm_compute. reflexivity.
  - reflexivity.
  - reflexivity.
  - reflexivity.
Defined.

(** [stopTimer] sends an explicit stop, with the client's clock as the
    end instant. *)
Lemma stop_payload_explicit st now_ms :
  TimeTracker.stop_payload st now_ms
  = explicit_stop_payload (Some (Some (TimeTracker.st_description st)))
      (of_ms now_ms).
Proof. reflexivity. Qed.

(** C5.  On a running entry an update that sets [is_running] to false
    and supplies no end instant makes the trigger put the current instant
    in [end_time] and the rounded duration in [duration_minutes].  An
    explicit stop that supplies the end instant [t] stores the duration of
    [t]: the same value when [t] is that instant, and one that differs by a
    minute at most when [t] lies less than a minute before it. *)
Theorem implicit_close_uses_now (tbl : Table) i r auth now p :
  stored tbl ->
  tbl !! i = Some r ->
  is_running r = Some true ->
  auth = Some (user_id r) ->
  upd_is_running p = Some (Some false) ->
  upd_end_time p = None ->
  upd_start_time p = None ->
  exists r1,
    update_time_entry auth i now p tbl !! i = Some r1
    /\ end_time r1 = Some now
    /\ is_running r1 = Some false
    /\ duration_minutes r1 = Some (epoch_minutes now (start_time r))
    /\ forall d t, exists r2,
        update_time_entry auth i now (explicit_stop_payload d t) tbl !! i
        = Some r2
        /\ end_time r2 = Some t
        /\ duration_minutes r2 = Some (epoch_minutes t (start_time r))
        /\ (t = now -> duration_minutes r2 = duration_minutes r1)
        /\ (t <= now -> now - t < usec_per_minute ->
            epoch_minutes t (start_time r)
              <= epoch_minutes now (start_time r)
              <= epoch_minutes t (start_time r) + 1).
Proof.
  intros Hst Hi Hrun -> Hp1 Hp2 Hp3.
  assert (Hend : end_time r = None).
  { destruct (end_time r) as [e|] eqn:He; [|reflexivity].
    destruct (stored_table_ok tbl Hst i r Hi e He) as [_ H]. congruence. }
  eexists. split; [apply lookup_update_own; [exact Hi|reflexivity]|].
  unfold update_row, update_updated_at_column.
  rewrite trigger_implicit_close
    by (simpl; rewrite ?Hp1, ?Hp2; first [assumption|reflexivity]).
  simpl. rewrite Hp1, Hp3. simpl.
  do 3 (split; [reflexivity|]). intros d t. eexists.
  split; [apply lookup_update_own; [exact Hi|reflexivity]|].
  unfold update_row, update_updated_at_column.
  rewrite (trigger_with_end _ _ _ t) by reflexivity. simpl.
  repeat split.
  - now intros ->.
  - now apply epoch_minutes_mono.
  - now apply epoch_minutes_close.
Qed.

Lemma implicit_close_uses_now_witness :
  exists r1,
    update_time_entry (Some Scenario.alice) 1 41400000123 close_payload
      Scenario.started.1.2 !! 1%nat = Some r1
    /\ end_time r1 = Some 41400000123
    /\ is_running r1 = Some false
    /\ duration_minutes r1 = Some 90
    /\ forall d t, exists r2,
        update_time_entry (Some Scenario.alice) 1 41400000123
          (explicit_stop_payload d t) Scenario.started.1.2 !! 1%nat
        = Some r2
        /\ end_time r2 = Some t
        /\ duration_minutes r2 = Some (epoch_minutes t 36000000000)
        /\ (t = 41400000123 -> duration_minutes r2 = duration_minutes r1)
        /\ (t <= 41400000123 -> 41400000123 - t < usec_per_minute ->
            epoch_minutes t 36000000000
              <= epoch_minutes 41400000123 36000000000
              <= epoch_minutes t 36000000000 + 1).
Proof.
  refine (implicit_close_uses_now Scenario.started.1.2 1%nat
            Scenario.running_row (Some Scenario.alice) 41400000123
            close_payload
            (reachable_stored _ started_reachable) _ _ _ _ _ _).
  - vm_compute. reflexivity.
  - reflexivity.
  - reflexivity.
  - reflexivity.
  - reflexivity.
  - reflexivity.
Defined.

(** C6.  In every state the lifecycle operations (start, stop, manual
    entry, edits of description and category, from any number of sessions)
    can reach, an entry that is running has neither an end instant nor a
    duration. *)
Theorem running_entry_has_no_end_no_duration (tbl : Table) :
  reachable tbl -> I1 tbl.
Proof.
  intros H i r Hi Hrun.
  assert (Hend : end_time r = None).
  { destruct (end_time r) as [e|] eqn:He; [|reflexivity].
    destruct (stored_table_ok tbl (reachable_stored _ H) i r Hi e He)
      as [_ H']. congruence. }
  split; [exact Hend|].
  exact (reachable_no_end_no_duration tbl H i r Hi Hend).
Qed.

Lemma running_entry_has_no_end_no_duration_witness :
  I1 Scenario.started_twice.1.2.
Proof.
  apply running_entry_has_no_end_no_duration, started_twice_reachable.
Defined.


(** The same within one session: two clicks on Start, the second one
    before the insert of the first has been answered.  Both calls read
    [activeEntry] as null, and the store holds two running entries of the
    user while both answers are still awaited. *)
Lemma second_click_starts_a_second_timer :
  exists c,
    rtc (Session.async_step false Scenario.alice)
        (Session.fresh Scenario.alice ∅) c
    /\ c.1.1 = Scenario.tracker
    /\ length c.2 = 2%nat
    /\ ~ at_most_one_running Scenario.alice c.1.2.
Proof.
  eexists. split; [|split; [|split]].
  - eapply rtc_l; [|eapply rtc_l; [|apply rtc_once]].
    + exact (Session.as_input false Scenario.alice "project-1" EmptyString
               "writing" 0 (TimeTracker.mount (Some Scenario.alice)) ∅ []).
    + refine (Session.as_start false Scenario.alice true 1 36000000
                36000000000 Scenario.tracker ∅ _ _ [] eq_refl _ _).
      * intros H. discriminate H.
      * vm_compute. reflexivity.
    + refine (Session.as_start false Scenario.alice true 2 36060000
                36060000000 Scenario.tracker _ _ _ _ eq_refl _ _).
      * intros H. discriminate H.
      * vm_compute. reflexivity.
  - reflexivity.
  - reflexivity.
  - intros H. assert (E : 1%nat = 2%nat); [|discriminate].
    eapply H; vm_compute; reflexivity.
Qed.





(** C9.  On a closed entry of the store an update that sets only the
    description, the category or both leaves the start and end instants,
    the duration and the running flag as they were. *)
Theorem edit_leaves_closed_entry_closed (tbl : Table) i r auth now d c :
  stored tbl ->
  tbl !! i = Some r ->
  is_running r = Some false ->
  is_Some (end_time r) ->
  is_Some (duration_minutes r) ->
  exists r',
    update_time_entry auth i now (edit_payload d c) tbl !! i = Some r'
    /\ start_time r' = start_time r
    /\ end_time r' = end_time r
    /\ duration_minutes r' = duration_minutes r
    /\ is_running r' = Some false.
Proof.
  intros Hst Hi Hrun _ _. unfold update_time_entry.
  rewrite lookup_alter_eq, Hi. simpl. eexists. split; [reflexivity|].
  case_bool_decide; [|auto].
  destruct (edit_frame d c now r (stored_table_ok tbl Hst i r Hi))
    as (H1 & H2 & H3 & H4 & _).
  rewrite H1, H2, H3, H4. auto.
Qed.

Lemma edit_leaves_closed_entry_closed_witness :
  exists r',
    update_time_entry (Some Scenario.alice) 1 50000000000
      (edit_payload (Some (Some "edited")) (Some (Some study)))
      Scenario.stopped.1.2 !! 1%nat = Some r'
    /\ start_time r' = 36000000000
    /\ end_time r' = Some 41400000000
    /\ duration_minutes r' = Some 90
    /\ is_running r' = Some false.
Proof.
  refine (edit_leaves_closed_entry_closed Scenario.stopped.1.2 1%nat
            (mkRow Scenario.alice "project-1" None (Some work)
               (Some "writing") 36000000000 (Some 41400000000) (Some 90)
               (Some false) 36000000000 41400000123)
            (Some Scenario.alice) 50000000000
            (Some (Some "edited")) (Some (Some study))
            (reachable_stored _ stopped_reachable) _ _ _ _).
  - vm_compute. reflexivity.
  - reflexivity.
  - eexists. reflexivity.
  - eexists. reflexivity.
Defined.

(** C10.  The reports query and the two dashboard queries keep only
    entries with a duration.  So an entry of the store without one, an open
    entry in particular, is none of the loaded entries, and the loaded
    entries, the totals, the two charts, the exported rows and the
    dashboard hours are what they would be if the store did not hold it. *)
Theorem reports_skip_entries_without_duration
    project_of task_title format_MMM_dd format_yyyy_MM_dd
    link user dateRange selectedProject startOfDay startOfWeek
    timeEntries (tbl : Table) i r :
  tbl !! i = Some r ->
  is_running r = Some true ->
  duration_minutes r = None ->
  let load t :=
    Reports.loadTimeEntries project_of task_title link user dateRange
      selectedProject t timeEntries in
  load tbl = load (delete i tbl)
  /\ Reports.getTotalHours (load tbl)
     = Reports.getTotalHours (load (delete i tbl))
  /\ Reports.getProjectChartData (load tbl)
     = Reports.getProjectChartData (load (delete i tbl))
  /\ Reports.getDailyChartData format_MMM_dd (load tbl)
     = Reports.getDailyChartData format_MMM_dd (load (delete i tbl))
  /\ Reports.csvData format_yyyy_MM_dd (load tbl)
     = Reports.csvData format_yyyy_MM_dd (load (delete i tbl))
  /\ Reports.loadStats link user startOfDay startOfWeek tbl
     = Reports.loadStats link user startOfDay startOfWeek (delete i tbl)
  /\ forall from to e,
      e ∈ Reports.query_time_entries project_of task_title user from to
            selectedProject tbl ->
      Reports.id e <> i /\ Reports.te_duration_minutes e <> None.
Proof.
  intros Hi _ Hd load.
  assert (E : load tbl = load (delete i tbl)).
  { unfold load, Reports.loadTimeEntries.
    destruct dateRange as [[from|] [to|]]; try reflexivity.
    destruct link; [|reflexivity].
    now apply (query_time_entries_delete _ _ _ _ _ _ _ i r). }
  rewrite <- E. do 5 (split; [reflexivity|]). split.
  - unfold Reports.loadStats.
    now rewrite !(query_durations_delete _ _ tbl i r).
  - intros from to e He.
    apply elem_of_query_time_entries in He as (r' & Hr' & -> & Hd').
    split; congruence.
Qed.

Lemma reports_skip_entries_without_duration_witness :
  let load t :=
    Reports.loadTimeEntries Scenario.project_of Scenario.task_title true
      (Some Scenario.alice) (Some 0, Some 86400000) None t [] in
  load Scenario.started.1.2 = load (delete 1%nat Scenario.started.1.2)
  /\ Reports.getTotalHours (load Scenario.started.1.2)
     = Reports.getTotalHours (load (delete 1%nat Scenario.started.1.2))
  /\ Reports.getProjectChartData (load Scenario.started.1.2)
     = Reports.getProjectChartData
         (load (delete 1%nat Scenario.started.1.2))
  /\ Reports.getDailyChartData Scenario.format_day
       (load Scenario.started.1.2)
     = Reports.getDailyChartData Scenario.format_day
         (load (delete 1%nat Scenario.started.1.2))
  /\ Reports.csvData Scenario.format_day (load Scenario.started.1.2)
     = Reports.csvData Scenario.format_day
         (load (delete 1%nat Scenario.started.1.2))
  /\ Reports.loadStats true (Some Scenario.alice) 0 0 Scenario.started.1.2
     = Reports.loadStats true (Some Scenario.alice) 0 0
         (delete 1%nat Scenario.started.1.2)
  /\ forall from to e,
      e ∈ Reports.query_time_entries Scenario.project_of
            Scenario.task_title (Some Scenario.alice) from to None
            Scenario.started.1.2 ->
      Reports.id e <> 1%nat /\ Reports.te_duration_minutes e <> None.
Proof.
  refine (reports_skip_entries_without_duration
            Scenario.project_of Scenario.task_title Scenario.format_day
            Scenario.format_day true (Some Scenario.alice)
            (Some 0, Some 86400000) None 0 0 [] Scenario.started.1.2 1%nat
            Scenario.running_row _ _ _).
  - vm_compute. reflexivity.
  - reflexivity.
  - reflexivity.
Defined.

(** * Further properties *)

(** ** The storage layer *)

Lemma update_other_row auth i now p (tbl : Table) j r :
  tbl !! j = Some r ->
  j <> i \/ auth <> Some (user_id r) ->
  update_time_entry auth i now p tbl !! j = Some r.
Proof.
  intros Hj Hor. unfold update_time_entry.
  destruct (decide (i = j)) as [->|Hne].
  - rewrite lookup_alter_eq, Hj. simpl.
    destruct Hor as [H|H]; [done|].
    now rewrite bool_decide_eq_false_2.
  - now rewrite lookup_alter_ne.
Qed.

(** X1.  An UPDATE changes at most the row with the given identifier, and
    that one only when the session owns it; the owner of the row stays,
    and no row is added or removed. *)
Theorem update_reaches_one_own_row auth i now p (tbl : Table) j :
  (update_time_entry auth i now p tbl !! j = None <-> tbl !! j = None)
  /\ (forall r, tbl !! j = Some r ->
        j <> i \/ auth <> Some (user_id r) ->
        update_time_entry auth i now p tbl !! j = Some r)
  /\ (forall r', update_time_entry auth i now p tbl !! j = Some r' ->
        exists r, tbl !! j = Some r /\ user_id r' = user_id r).
Proof.
  split; [|split].
  - unfold update_time_entry. apply lookup_alter_None.
  - intros r Hj Hor. now apply update_other_row.
  - intros r' H. apply lookup_update in H as [H|(r & Hr & _ & _ & ->)].
    + eauto.
    + exists r. split; [exact Hr|apply update_row_user_id].
Qed.

(** X2.  An INSERT that succeeds is the session's own: the new row
    carries the session's user, sits under an identifier that was free,
    and every other row is as before. *)
Theorem insert_adds_one_own_row auth uuid now p (tbl : Table) r tbl' :
  insert_time_entry auth uuid now p tbl = inr (r, tbl') ->
  auth = Some (user_id r)
  /\ tbl !! uuid = None
  /\ tbl' !! uuid = Some r
  /\ forall j, j <> uuid -> tbl' !! j = tbl !! j.
Proof.
  intros H. apply insert_inr in H as (u & _ & -> & Hfree & -> & ->).
  rewrite trigger_user_id. simpl.
  split; [reflexivity|]. split; [exact Hfree|].
  split; [apply lookup_insert_eq|].
  intros j Hj. now rewrite lookup_insert_ne.
Qed.

Lemma insert_adds_one_own_row_witness :
  Some Scenario.alice = Some (user_id Scenario.running_row)
  /\ (∅ : Table) !! 1%nat = None
  /\ Scenario.started.1.2 !! 1%nat = Some Scenario.running_row
  /\ forall j, j <> 1%nat -> Scenario.started.1.2 !! j = (∅ : Table) !! j.
Proof.
  refine (insert_adds_one_own_row (Some Scenario.alice) 1%nat 36000000000
            (TimeTracker.start_payload Scenario.tracker 36000000) ∅
            Scenario.running_row Scenario.started.1.2 _).
  vm_compute. reflexivity.
Defined.

(** X3.  The trigger puts in an end instant only on an UPDATE of a running
    row.  A row inserted without [end_time] is stored as it was sent, also
    when it is sent with [is_running = false]: it then has neither an end
    nor a computed duration. *)
Theorem insert_without_end_gets_none auth uuid now p (tbl : Table) r tbl' :
  insert_time_entry auth uuid now p tbl = inr (r, tbl') ->
  ins_end_time p = None ->
  end_time r = None
  /\ duration_minutes r = ins_duration_minutes p
  /\ is_running r = default (Some false) (ins_is_running p).
Proof.
  intros H He. apply insert_inr in H as (u & _ & _ & _ & -> & _).
  rewrite trigger_untouched; simpl; auto.
Qed.

Lemma insert_without_end_gets_none_witness :
  exists r,
    (<[7%nat := r]> ∅ : Table) !! 7%nat = Some r
    /\ end_time r = None
    /\ duration_minutes r = None
    /\ is_running r = Some false.
Proof.
  eexists. split; [apply lookup_insert_eq|].
  refine (insert_without_end_gets_none (Some Scenario.alice) 7%nat 5
            (mkInsert (Some Scenario.alice) "project-1" None None None 0
                      None None None) ∅ _ _ _ _).
  - vm_compute. reflexivity.
  - reflexivity.
Defined.

(** X4.  An entry that has an end instant cannot be set running by an
    UPDATE that leaves it an end instant: whatever else the payload says,
    [is_running = true] included, the row comes out not running, with the
    duration of its start and end. *)
Theorem entry_with_end_stays_closed auth i now p (tbl : Table) r :
  tbl !! i = Some r ->
  auth = Some (user_id r) ->
  is_Some (end_time r) ->
  upd_end_time p <> Some None ->
  exists r' e,
    update_time_entry auth i now p tbl !! i = Some r'
    /\ end_time r' = Some e
    /\ is_running r' = Some false
    /\ duration_minutes r' = Some (epoch_minutes e (start_time r')).
Proof.
  intros Hi -> [e0 He0] Hp.
  assert (He : exists e, end_time (apply_update p r) = Some e).
  { simpl. destruct (upd_end_time p) as [[e|]|]; simpl; eauto. done. }
  destruct He as [e He].
  exists (update_row p now r), e.
  split; [apply lookup_update_own; [exact Hi|reflexivity]|].
  unfold update_row, update_updated_at_column.
  rewrite (trigger_with_end _ _ _ e He).
  split; [exact He|]. split; reflexivity.
Qed.

Lemma entry_with_end_stays_closed_witness :
  exists r' e,
    update_time_entry (Some Scenario.alice) 1 50000000000
      (mkUpdate None None None None None None None (Some (Some true)))
      Scenario.stopped.1.2 !! 1%nat = Some r'
    /\ end_time r' = Some e
    /\ is_running r' = Some false
    /\ duration_minutes r' = Some (epoch_minutes e (start_time r')).
Proof.
  refine (entry_with_end_stays_closed (Some Scenario.alice) 1%nat 50000000000
            (mkUpdate None None None None None None None (Some (Some true)))
            Scenario.stopped.1.2
            (mkRow Scenario.alice "project-1" None (Some work)
               (Some "writing") 36000000000 (Some 41400000000) (Some 90)
               (Some false) 36000000000 41400000123) _ _ _ _).
  - vm_compute. reflexivity.
  - reflexivity.
  - eexists. reflexivity.
  - discriminate.
Defined.

(** X5.  The trigger never clears [duration_minutes].  An UPDATE that
    nulls [end_time] and sets [is_running] to true reopens a closed entry
    and leaves it the duration it had: the store by itself does not keep
    running entries free of a duration. *)
Theorem nulling_end_reopens_with_old_duration auth i now p (tbl : Table) r :
  tbl !! i = Some r ->
  auth = Some (user_id r) ->
  upd_end_time p = Some None ->
  upd_is_running p = Some (Some true) ->
  upd_duration_minutes p = None ->
  exists r',
    update_time_entry auth i now p tbl !! i = Some r'
    /\ is_running r' = Some true
    /\ end_time r' = None
    /\ duration_minutes r' = duration_minutes r.
Proof.
  intros Hi -> H1 H2 H3. exists (update_row p now r).
  split; [apply lookup_update_own; [exact Hi|reflexivity]|].
  unfold update_row, update_updated_at_column.
  rewrite trigger_untouched; simpl; rewrite ?H1, ?H2, ?H3; simpl; auto.
Qed.

Lemma nulling_end_reopens_with_old_duration_witness :
  exists r',
    update_time_entry (Some Scenario.alice) 1 50000000000
      (mkUpdate None None None None None (Some None) None (Some (Some true)))
      Scenario.stopped.1.2 !! 1%nat = Some r'
    /\ is_running r' = Some true
    /\ end_time r' = None
    /\ duration_minutes r' = Some 90.
Proof.
  refine (nulling_end_reopens_with_old_duration (Some Scenario.alice) 1%nat
            50000000000
            (mkUpdate None None None None None (Some None) None
                      (Some (Some true)))
            Scenario.stopped.1.2
            (mkRow Scenario.alice "project-1" None (Some work)
               (Some "writing") 36000000000 (Some 41400000000) (Some 90)
               (Some false) 36000000000 41400000123) _ _ _ _ _).
  - vm_compute. reflexivity.
  - reflexivity.
  - reflexivity.
  - reflexivity.
  - reflexivity.
Defined.

Lemma update_reaches_one_own_row_witness :
  update_time_entry (Some 2%nat) 1 50000000000
    (mkUpdate None None None None None None None (Some (Some false)))
    Scenario.started.1.2 !! 1%nat
  = Some Scenario.running_row.
Proof.
  refine (proj1 (proj2 (update_reaches_one_own_row (Some 2%nat) 1%nat
                          50000000000 _ Scenario.started.1.2 1%nat))
            Scenario.running_row _ _).
  - vm_compute. reflexivity.
  - right. discriminate.
Defined.

(** ** The timer component *)

(** X6.  [startTimer] changes the store only when it reports that the
    timer has started, and then by one new row under the identifier drawn;
    in every other case (no project selected, nobody signed in, the
    request or the insert failed) the component and the store are as
    before. *)
Theorem startTimer_adds_one_row_or_nothing link uuid now_ms now st
    (tbl : Table) :
  let res := TimeTracker.startTimer link uuid now_ms now st tbl in
  (res.2 = Some TimeTracker.Timer_started ->
   TimeTracker.selectedProject st <> EmptyString
   /\ link = true
   /\ is_Some (TimeTracker.user st)
   /\ tbl !! uuid = None
   /\ is_Some (res.1.2 !! uuid)
   /\ forall j, j <> uuid -> res.1.2 !! j = tbl !! j)
  /\ (res.2 <> Some TimeTracker.Timer_started -> res.1 = (st, tbl)).
Proof.
  intros res. subst res.
  destruct (startTimer_cases link uuid now_ms now st tbl)
    as [E|[E|(r & t' & Hi & E)]]; rewrite E; simpl.
  - split; [discriminate|reflexivity].
  - split; [discriminate|reflexivity].
  - split; [intros _|congruence].
    assert (Hp : TimeTracker.selectedProject st <> EmptyString).
    { intros Hp. unfold TimeTracker.startTimer in E.
      rewrite bool_decide_eq_true_2 in E by exact Hp. discriminate. }
    assert (Hl : link = true).
    { destruct link; [reflexivity|].
      unfold TimeTracker.startTimer in E.
      rewrite bool_decide_eq_false_2 in E by exact Hp. discriminate. }
    apply insert_inr in Hi as (u & _ & Hu & Hfree & -> & ->).
    rewrite Hu, lookup_insert_eq. repeat split; eauto.
    intros j Hj. now rewrite lookup_insert_ne.
Qed.

Lemma startTimer_adds_one_row_or_nothing_witness :
  TimeTracker.selectedProject Scenario.tracker <> EmptyString
  /\ true = true
  /\ is_Some (TimeTracker.user Scenario.tracker)
  /\ (∅ : Table) !! 1%nat = None
  /\ is_Some (Scenario.started.1.2 !! 1%nat)
  /\ forall j, j <> 1%nat -> Scenario.started.1.2 !! j = (∅ : Table) !! j.
Proof.
  refine (proj1 (startTimer_adds_one_row_or_nothing true 1%nat 36000000
                   36000000000 Scenario.tracker ∅) _).
  reflexivity.
Defined.

(** X7.  [stopTimer] with an active entry leaves every row but the one
    of the active entry as it is.  When the request goes through and the
    signed-in user owns that row, the row is rewritten: it keeps the
    owner, the project, the task, the category, the start and the creation
    instant, its description becomes the text the component holds, its end
    the reading of the client's clock, and it is not running.  Otherwise
    that row too is as it was. *)
Theorem stopTimer_rewrites_one_row link now_ms now st (tbl : Table) e :
  TimeTracker.activeEntry st = Some e ->
  let tbl' := (TimeTracker.stopTimer link now_ms now st tbl).1.2 in
  (forall j, j <> TimeTracker.id e -> tbl' !! j = tbl !! j)
  /\ (tbl !! TimeTracker.id e = None -> tbl' !! TimeTracker.id e = None)
  /\ forall r, tbl !! TimeTracker.id e = Some r ->
       (link = true -> TimeTracker.user st = Some (user_id r) ->
        exists r',
          tbl' !! TimeTracker.id e = Some r'
          /\ user_id r' = user_id r /\ project_id r' = project_id r
          /\ task_id r' = task_id r /\ category r' = category r
          /\ start_time r' = start_time r /\ created_at r' = created_at r
          /\ description r' = Some (TimeTracker.st_description st)
          /\ end_time r' = Some (of_ms now_ms)
          /\ is_running r' = Some false)
       /\ (link = false \/ TimeTracker.user st <> Some (user_id r) ->
           tbl' !! TimeTracker.id e = Some r).
Proof.
  intros Ha tbl'. subst tbl'. unfold TimeTracker.stopTimer. rewrite Ha.
  destruct link; cbn [fst snd].
  - split; [|split].
    + intros j Hj. unfold update_time_entry.
      now rewrite lookup_alter_ne by congruence.
    + intros Hn. unfold update_time_entry.
      now rewrite lookup_alter_eq, Hn.
    + intros r Hr. split.
      * intros _ Hu. eexists. split.
        -- rewrite Hu. apply lookup_update_own; [exact Hr|reflexivity].
        -- rewrite stop_row. simpl. repeat split.
      * intros [H|Hu]; [discriminate|].
        apply update_other_row; auto.
  - split; [|split]; [reflexivity|auto|].
    intros r Hr. split; [discriminate|auto].
Qed.

Lemma stopTimer_rewrites_one_row_witness :
  exists r',
    Scenario.stopped.1.2 !! 1%nat = Some r'
    /\ user_id r' = Scenario.alice /\ project_id r' = "project-1"
    /\ task_id r' = None /\ category r' = Some work
    /\ start_time r' = 36000000000 /\ created_at r' = 36000000000
    /\ description r' = Some "writing"
    /\ end_time r' = Some (of_ms 41400000)
    /\ is_running r' = Some false.
Proof.
  refine (proj1 (proj2 (proj2
            (stopTimer_rewrites_one_row true 41400000 41400000123
               Scenario.started.1.1 Scenario.started.1.2 Scenario.active _))
            Scenario.running_row _) eq_refl eq_refl).
  - reflexivity.
  - vm_compute. reflexivity.
Defined.

(** X8.  Start, then stop in the same component with a clock that has not
    gone back: the entry is closed with the two clock readings as start
    and end and a duration that is not negative and lies within half a
    minute of the time between them; the component has no active entry
    and an empty description. *)
Theorem start_then_stop st (tbl : Table) u uuid now_ms1 now1 now_ms2 now2 :
  TimeTracker.selectedProject st <> EmptyString ->
  TimeTracker.user st = Some u ->
  tbl !! uuid = None ->
  now_ms1 <= now_ms2 ->
  let s1 := TimeTracker.startTimer true uuid now_ms1 now1 st tbl in
  let s2 := TimeTracker.stopTimer true now_ms2 now2 s1.1.1 s1.1.2 in
  s2.2 = Some TimeTracker.Timer_stopped
  /\ TimeTracker.activeEntry s2.1.1 = None
  /\ TimeTracker.st_description s2.1.1 = EmptyString
  /\ exists r d,
      s2.1.2 !! uuid = Some r
      /\ start_time r = of_ms now_ms1
      /\ end_time r = Some (of_ms now_ms2)
      /\ is_running r = Some false
      /\ duration_minutes r = Some d
      /\ 0 <= d
      /\ 2 * Z.abs (60000 * d - (now_ms2 - now_ms1)) <= 60000.
Proof.
  intros Hp Hu Hfresh Hle s1 s2. subst s2 s1.
  unfold TimeTracker.startTimer. rewrite bool_decide_eq_false_2 by exact Hp.
  simpl. rewrite Hu, (insert_ok u) by (simpl; assumption).
  rewrite insert_started by exact Hu.
  unfold TimeTracker.stopTimer. simpl.
  do 3 (split; [reflexivity|]).
  eexists. eexists. split.
  { apply lookup_update_own; [apply lookup_insert_eq|reflexivity]. }
  rewrite stop_row. simpl. do 4 (split; [reflexivity|]).
  unfold of_ms.
  destruct (epoch_minutes_cases (1000 * now_ms2) (1000 * now_ms1))
    as [[_ ->]|[Hlt _]]; [|lia].
  euclid (2 * (1000 * now_ms2 - 1000 * now_ms1) + 60000000) 120000000.
  split; lia.
Qed.

Lemma start_then_stop_witness :
  Scenario.stopped.2 = Some TimeTracker.Timer_stopped
  /\ TimeTracker.activeEntry Scenario.stopped.1.1 = None
  /\ TimeTracker.st_description Scenario.stopped.1.1 = EmptyString
  /\ exists r d,
      Scenario.stopped.1.2 !! 1%nat = Some r
      /\ start_time r = of_ms 36000000
      /\ end_time r = Some (of_ms 41400000)
      /\ is_running r = Some false
      /\ duration_minutes r = Some d
      /\ 0 <= d
      /\ 2 * Z.abs (60000 * d - (41400000 - 36000000)) <= 60000.
Proof.
  refine (start_then_stop Scenario.tracker ∅ Scenario.alice 1%nat
            36000000 36000000000 41400000 41400000123 _ _ _ _).
  - discriminate.
  - reflexivity.
  - apply lookup_empty.
  - lia.
Defined.

(** X9.  What the running timer shows and what a stop stores agree.  On
    the component that started the timer a tick at the clock reading
    [now_ms2] shows the whole seconds since the start; a stop at that
    reading stores a duration whose minutes differ from the seconds shown
    by half a minute at most. *)
Theorem display_agrees_with_stored_duration st (tbl : Table) u uuid
    now_ms1 now1 now_ms2 now2 :
  TimeTracker.selectedProject st <> EmptyString ->
  TimeTracker.user st = Some u ->
  tbl !! uuid = None ->
  now_ms1 <= now_ms2 ->
  let s1 := TimeTracker.startTimer true uuid now_ms1 now1 st tbl in
  let shown := TimeTracker.elapsedTime (Display.tick now_ms2 s1.1.1) in
  let s2 := TimeTracker.stopTimer true now_ms2 now2 s1.1.1 s1.1.2 in
  shown = (now_ms2 - now_ms1) / 1000
  /\ exists r d,
      s2.1.2 !! uuid = Some r
      /\ duration_minutes r = Some d
      /\ Z.abs (60 * d - shown) <= 30.
Proof.
  intros Hp Hu Hfresh Hle s1 shown s2. subst s2 shown s1.
  unfold TimeTracker.startTimer. rewrite bool_decide_eq_false_2 by exact Hp.
  simpl. rewrite Hu, (insert_ok u) by (simpl; assumption).
  rewrite insert_started by exact Hu.
  unfold TimeTracker.stopTimer, Display.tick, Display.getTime. simpl.
  unfold of_ms. rewrite (Z.mul_comm 1000 now_ms1), Z.div_mul by lia.
  split; [reflexivity|].
  eexists. eexists. split.
  { apply lookup_update_own; [apply lookup_insert_eq|reflexivity]. }
  rewrite stop_row. simpl. split; [reflexivity|].
  unfold of_ms.
  destruct (epoch_minutes_cases (1000 * now_ms2) (1000 * now_ms1))
    as [[_ ->]|[Hlt _]]; [|lia].
  euclid (2 * (1000 * now_ms2 - 1000 * now_ms1) + 60000000) 120000000.
  euclid (now_ms2 - now_ms1) 1000. lia.
Qed.

Lemma display_agrees_with_stored_duration_witness :
  TimeTracker.elapsedTime (Display.tick 41400000 Scenario.started.1.1)
  = (41400000 - 36000000) / 1000
  /\ exists r d,
      Scenario.stopped.1.2 !! 1%nat = Some r
      /\ duration_minutes r = Some d
      /\ Z.abs (60 * d
                - TimeTracker.elapsedTime
                    (Display.tick 41400000 Scenario.started.1.1)) <= 30.
Proof.
  refine (display_agrees_with_stored_duration Scenario.tracker ∅
            Scenario.alice 1%nat 36000000 36000000000 41400000 41400000123
            _ _ _ _).
  - discriminate.
  - reflexivity.
  - apply lookup_empty.
  - lia.
Defined.

(** X10.  A timer survives a reload.  When the user had no running entry
    and [startTimer] has started one, a freshly mounted component that
    loads the active entry ends up with the same active entry, project,
    task and description as the component that started the timer. *)
Theorem load_restores_started_timer st (tbl : Table) u uuid now_ms now :
  TimeTracker.selectedProject st <> EmptyString ->
  TimeTracker.user st = Some u ->
  tbl !! uuid = None ->
  none_running u tbl ->
  let s1 := TimeTracker.startTimer true uuid now_ms now st tbl in
  TimeTracker.loadActiveTimeEntry true (TimeTracker.mount (Some u)) s1.1.2
  = (TimeTracker.mkState (Some u) (TimeTracker.activeEntry s1.1.1)
       (TimeTracker.selectedProject st) (TimeTracker.selectedTask st)
       (TimeTracker.st_description st) 0,
     None).
Proof.
  intros Hp Hu Hfresh Hnone s1. subst s1.
  unfold TimeTracker.startTimer. rewrite bool_decide_eq_false_2 by exact Hp.
  simpl. rewrite Hu, (insert_ok u) by (simpl; assumption).
  rewrite insert_started by exact Hu. simpl.
  set (r := row_of_insert u (TimeTracker.start_payload st now_ms) now).
  unfold TimeTracker.loadActiveTimeEntry, select_running_single. simpl.
  rewrite map_filter_insert_True by (simpl; auto).
  assert (E : filter (fun kv : Id * Row =>
                        Some u = Some (user_id kv.2)
                        ∧ Some u = Some (user_id kv.2)
                        ∧ is_running kv.2 = Some true) tbl = ∅).
  { apply map_empty_filter_2. intros i ri Hi (Hu' & _ & Hr).
    simpl in *. injection Hu' as Hu'. exact (Hnone i ri Hi (eq_sym Hu') Hr). }
  rewrite E, insert_empty, map_to_list_singleton. simpl.
  f_equal. f_equal.
  - unfold or_null, or_else. case_bool_decide as H1; [now rewrite H1|].
    now rewrite bool_decide_eq_false_2.
  - unfold or_else. case_bool_decide as H1; [now rewrite H1|reflexivity].
Qed.

Lemma load_restores_started_timer_witness :
  TimeTracker.loadActiveTimeEntry true
    (TimeTracker.mount (Some Scenario.alice)) Scenario.started.1.2
  = (TimeTracker.mkState (Some Scenario.alice)
       (TimeTracker.activeEntry Scenario.started.1.1)
       "project-1" EmptyString "writing" 0,
     None).
Proof.
  refine (load_restores_started_timer Scenario.tracker ∅ Scenario.alice
            1%nat 36000000 36000000000 _ _ _ _).
  - discriminate.
  - reflexivity.
  - apply lookup_empty.
  - intros i r Hi. rewrite lookup_empty in Hi. discriminate.
Defined.

(** X11.  [loadActiveTimeEntry] sets the active entry only when the user
    has exactly one running entry.  With none, and likewise with two or
    more, [.single()] answers PGRST116, which the component ignores: its
    state is unchanged and nothing is shown, so with two running entries
    it offers the Start button. *)
Theorem load_ignores_several_running_entries st (tbl : Table) u :
  TimeTracker.user st = Some u ->
  none_running u tbl
  \/ (exists i j ri rj,
        i <> j /\ tbl !! i = Some ri /\ tbl !! j = Some rj
        /\ user_id ri = u /\ user_id rj = u
        /\ is_running ri = Some true /\ is_running rj = Some true) ->
  TimeTracker.loadActiveTimeEntry true st tbl = (st, None).
Proof.
  intros Hu Hcases.
  unfold TimeTracker.loadActiveTimeEntry, select_running_single. simpl.
  rewrite Hu.
  set (m := filter (fun kv : Id * Row =>
                      Some u = Some (user_id kv.2)
                      ∧ Some u = Some (user_id kv.2)
                      ∧ is_running kv.2 = Some true) tbl).
  assert (Hin : forall i r, tbl !! i = Some r -> user_id r = u ->
                            is_running r = Some true -> m !! i = Some r).
  { intros i r Hi Hr Hrun. apply map_lookup_filter_Some.
    simpl. rewrite Hr. auto. }
  destruct (map_to_list m) as [|[k v] [|kv l]] eqn:E; try reflexivity.
  exfalso.
  assert (Hm : m = {[k := v]}).
  { rewrite <- (list_to_map_to_list m), E. simpl. apply insert_empty. }
  destruct Hcases as [Hnone|(i & j & ri & rj & Hne & Hi & Hj & Hui & Huj
                             & Hri & Hrj)].
  - assert (Hk : m !! k = Some v) by (rewrite Hm; apply lookup_singleton_eq).
    apply map_lookup_filter_Some in Hk as (Hk & Hu' & _ & Hr). simpl in *.
    injection Hu' as Hu'. exact (Hnone k v Hk (eq_sym Hu') Hr).
  - pose proof (Hin i ri Hi Hui Hri) as H1.
    pose proof (Hin j rj Hj Huj Hrj) as H2.
    rewrite Hm in H1, H2.
    apply lookup_singleton_Some in H1 as [<- _].
    apply lookup_singleton_Some in H2 as [<- _]. done.
Qed.

Lemma load_ignores_several_running_entries_witness :
  TimeTracker.loadActiveTimeEntry true
    (TimeTracker.mount (Some Scenario.alice)) Scenario.started_twice.1.2
  = (TimeTracker.mount (Some Scenario.alice), None).
Proof.
  refine (load_ignores_several_running_entries
            (TimeTracker.mount (Some Scenario.alice))
            Scenario.started_twice.1.2 Scenario.alice _ _).
  - reflexivity.
  - right. exists 1%nat, 2%nat. do 2 eexists.
    split; [discriminate|].
    split; [vm_compute; reflexivity|].
    split; [vm_compute; reflexivity|].
    repeat split.
Defined.

(** ** The manual form *)

Lemma handleSubmit_outcomes link uuid now f (tbl : Table) :
  ((ManualTimeEntry.handleSubmit link uuid now f tbl).2
     <> ManualTimeEntry.Toasted ManualTimeEntry.Time_entry_added
   /\ (ManualTimeEntry.handleSubmit link uuid now f tbl).1.2 = tbl)
  \/ exists dm s e r tbl',
      ManualTimeEntry.selectedProject f <> EmptyString
      /\ ManualTimeEntry.durationMinutes f = Some dm
      /\ ManualTimeEntry.startDateTime f = Some s
      /\ ManualTimeEntry.endDateTime f dm = Some e
      /\ insert_time_entry (ManualTimeEntry.user f) uuid now
           (ManualTimeEntry.submit_payload f dm s e) tbl = inr (r, tbl')
      /\ ManualTimeEntry.handleSubmit link uuid now f tbl
         = (ManualTimeEntry.rerender (ManualTimeEntry.setLoading true f)
              (ManualTimeEntry.setLoading false
                 (ManualTimeEntry.reset_form
                    (ManualTimeEntry.setLoading true f))),
            tbl', ManualTimeEntry.Toasted ManualTimeEntry.Time_entry_added).
Proof.
  unfold ManualTimeEntry.handleSubmit.
  case_bool_decide as Hp; [left; split; [discriminate|reflexivity]|].
  destruct (ManualTimeEntry.durationMinutes f) as [dm|] eqn:Ed;
    [|left; split; [discriminate|reflexivity]].
  destruct (Qle_bool dm 0) eqn:Hdm;
    [left; split; [discriminate|reflexivity]|].
  destruct (ManualTimeEntry.startDateTime f) as [s|] eqn:Es;
    [|left; split; [discriminate|reflexivity]].
  destruct (ManualTimeEntry.endDateTime f dm) as [e|] eqn:Ee;
    [|left; split; [discriminate|reflexivity]].
  destruct link; simpl; [|left; split; [discriminate|reflexivity]].
  destruct (insert_time_entry _ _ _ _ _) as [err|[r tbl']] eqn:E;
    [left; split; [discriminate|reflexivity]|].
  right. exists dm, s, e, r, tbl'. auto 10.
Qed.


(** X12.  [handleSubmit] changes the store only when it reports that the
    entry has been added, and then by one new row under the identifier
    drawn: a row of the signed-in user that is closed, with an end and a
    duration.  With every other outcome the store is as before. *)
Theorem handleSubmit_adds_one_closed_row_or_nothing link uuid now f
    (tbl : Table) :
  let res := ManualTimeEntry.handleSubmit link uuid now f tbl in
  (res.2 = ManualTimeEntry.Toasted ManualTimeEntry.Time_entry_added ->
   tbl !! uuid = None
   /\ exists r,
       res.1.2 = <[uuid := r]> tbl
       /\ ManualTimeEntry.user f = Some (user_id r)
       /\ is_running r = Some false
       /\ is_Some (end_time r)
       /\ is_Some (duration_minutes r))
  /\ (res.2 <> ManualTimeEntry.Toasted ManualTimeEntry.Time_entry_added ->
      res.1.2 = tbl).
Proof.
  intros res. subst res.
  destruct (handleSubmit_outcomes link uuid now f tbl)
    as [[Hne Heq]|(dm & s & e & r & tbl' & _ & _ & _ & _ & Hi & E)].
  - split; [intros H; contradiction|intros _; exact Heq].
  - rewrite E. simpl. split; [intros _|congruence].
    apply insert_inr in Hi as (u & _ & Hu & Hfree & -> & ->).
    split; [exact Hfree|]. eexists. split; [reflexivity|].
    rewrite submit_row. simpl. repeat split; eauto.
Qed.



Lemma handleSubmit_adds_one_closed_row_or_nothing_witness :
  (∅ : Table) !! 5%nat = None
  /\ exists r,
      (ManualTimeEntry.handleSubmit true 5 77 Scenario.form_45 ∅).1.2
      = <[5%nat := r]> ∅
      /\ ManualTimeEntry.user Scenario.form_45 = Some (user_id r)
      /\ is_running r = Some false
      /\ is_Some (end_time r)
      /\ is_Some (duration_minutes r).
Proof.
  refine (proj1 (handleSubmit_adds_one_closed_row_or_nothing true 5%nat 77
                   Scenario.form_45 ∅) _).
  vm_compute. reflexivity.
Defined.



(** X15.  After a submission that was accepted the form is reset to 09:00
    to 10:00 with an empty duration text.  If the two times had not been
    changed from 09:00 and 10:00, the duration effect does not run again:
    the text stays empty, and submitting the form once more is turned down
    as an invalid duration, whatever the store.  If one of them had been
    changed (start/end mode), the effect runs on the reset times and the
    text reads 1.00. *)
Theorem reset_after_submit_leaves_duration_empty link uuid now f
    (tbl : Table) :
  (ManualTimeEntry.handleSubmit link uuid now f tbl).2
  = ManualTimeEntry.Toasted ManualTimeEntry.Time_entry_added ->
  let f' := (ManualTimeEntry.handleSubmit link uuid now f tbl).1.1 in
  ManualTimeEntry.startTime f' = Some 540
  /\ ManualTimeEntry.endTime f' = Some 600
  /\ ManualTimeEntry.description f' = EmptyString
  /\ (ManualTimeEntry.startTime f = Some 540 ->
      ManualTimeEntry.endTime f = Some 600 ->
      ManualTimeEntry.duration f' = None
      /\ forall link' uuid' now' (tbl' : Table),
          ManualTimeEntry.handleSubmit link' uuid' now' f' tbl'
          = (f', tbl',
             ManualTimeEntry.Toasted ManualTimeEntry.Invalid_duration))
  /\ (ManualTimeEntry.entryMode f = ManualTimeEntry.time_range ->
      ManualTimeEntry.startTime f <> Some 540
      \/ ManualTimeEntry.endTime f <> Some 600 ->
      ManualTimeEntry.duration f' = Some (100 # 100)).
Proof.
  intros Hok f'. subst f'.
  destruct (handleSubmit_outcomes link uuid now f tbl)
    as [[Hne _]|(dm & s & e & r & t' & Hp & _ & Hs & _ & _ & E)];
    [contradiction|].
  rewrite E. simpl. clear E Hok.
  set (f1 := ManualTimeEntry.setLoading true f).
  set (g := ManualTimeEntry.setLoading false (ManualTimeEntry.reset_form f1)).
  assert (Hg : ManualTimeEntry.rerender f1 g = g
               \/ ManualTimeEntry.rerender f1 g
                  = ManualTimeEntry.calculate_duration g).
  { unfold ManualTimeEntry.rerender.
    destruct (ManualTimeEntry.same_deps f1 g); auto. }
  assert (Hcalc : forall x, ManualTimeEntry.startTime
                              (ManualTimeEntry.calculate_duration x)
                            = ManualTimeEntry.startTime x
                            /\ ManualTimeEntry.endTime
                                 (ManualTimeEntry.calculate_duration x)
                               = ManualTimeEntry.endTime x
                            /\ ManualTimeEntry.description
                                 (ManualTimeEntry.calculate_duration x)
                               = ManualTimeEntry.description x).
  { intros x. unfold ManualTimeEntry.calculate_duration.
    repeat case_match; auto. }
  split; [destruct Hg as [->| ->]; [reflexivity|now rewrite (proj1 (Hcalc g))]|].
  split; [destruct Hg as [->| ->];
          [reflexivity|now rewrite (proj1 (proj2 (Hcalc g)))]|].
  split; [destruct Hg as [->| ->];
          [reflexivity|now rewrite (proj2 (proj2 (Hcalc g)))]|].
  clear Hg Hcalc. split.
  - intros Ha Hb.
    assert (Hsame : ManualTimeEntry.same_deps f1 g = true).
    { unfold ManualTimeEntry.same_deps. simpl. rewrite Ha, Hb.
      rewrite !bool_decide_eq_true_2; reflexivity. }
    unfold ManualTimeEntry.rerender. rewrite Hsame.
    split; [reflexivity|]. intros link' uuid' now' tbl'.
    unfold ManualTimeEntry.handleSubmit. simpl.
    now rewrite bool_decide_eq_false_2 by exact Hp.
  - intros Hm Hor.
    assert (Hdiff : ManualTimeEntry.same_deps f1 g = false).
    { unfold ManualTimeEntry.same_deps. simpl.
      destruct Hor as [H|H].
      - rewrite (bool_decide_eq_false_2 _ H). reflexivity.
      - rewrite (bool_decide_eq_false_2 (_ = Some 600)) by exact H.
        now rewrite andb_false_r. }
    unfold ManualTimeEntry.rerender. rewrite Hdiff.
    unfold ManualTimeEntry.startDateTime in Hs. rewrite Hm in Hs.
    apply date_at_Some in Hs as (d0 & a & Hd0 & _ & _ & _).
    unfold ManualTimeEntry.calculate_duration. simpl. rewrite Hm, Hd0.
    simpl.
    replace (d0 + 60000 * 600 >? d0 + 60000 * 540) with true
      by (symmetry; apply Z.gtb_lt; lia).
    replace (d0 + 60000 * 600 - (d0 + 60000 * 540)) with 3600000 by lia.
    reflexivity.
Qed.

Lemma reset_after_submit_leaves_duration_empty_witness :
  ManualTimeEntry.startTime Runs.submitted.1.1 = Some 540
  /\ ManualTimeEntry.endTime Runs.submitted.1.1 = Some 600
  /\ ManualTimeEntry.description Runs.submitted.1.1 = EmptyString
  /\ (ManualTimeEntry.startTime Scenario.form = Some 540 ->
      ManualTimeEntry.endTime Scenario.form = Some 600 ->
      ManualTimeEntry.duration Runs.submitted.1.1 = None
      /\ forall link' uuid' now' (tbl' : Table),
          ManualTimeEntry.handleSubmit link' uuid' now'
            Runs.submitted.1.1 tbl'
          = (Runs.submitted.1.1, tbl',
             ManualTimeEntry.Toasted ManualTimeEntry.Invalid_duration))
  /\ (ManualTimeEntry.entryMode Scenario.form = ManualTimeEntry.time_range ->
      ManualTimeEntry.startTime Scenario.form <> Some 540
      \/ ManualTimeEntry.endTime Scenario.form <> Some 600 ->
      ManualTimeEntry.duration Runs.submitted.1.1 = Some (100 # 100)).
Proof.
  refine (reset_after_submit_leaves_duration_empty true 5%nat 77
            Scenario.form ∅ _).
  vm_compute. reflexivity.
Defined.

(** ** The reports *)

Lemma insert_sorted_Permutation {A} (before : A -> A -> bool) x l :
  Reports.insert_sorted before x l ≡ₚ x :: l.
Proof.
  induction l as [|y l IH]; simpl; [reflexivity|].
  destruct (before y x); [|reflexivity].
  rewrite IH. apply Permutation_swap.
Qed.

Lemma sort_by_Permutation {A} (before : A -> A -> bool) l :
  Reports.sort_by before l ≡ₚ l.
Proof.
  unfold Reports.sort_by. induction l as [|y l IH]; simpl; [reflexivity|].
  now rewrite insert_sorted_Permutation, IH.
Qed.

Section InsertionSort.
Context {A : Type} (before : A -> A -> bool) (R : A -> A -> Prop).
Hypothesis before_true : forall y x, before y x = true -> R y x.
Hypothesis before_false : forall y x, before y x = false -> R x y.

Lemma insert_sorted_HdRel a x l :
  R a x -> HdRel R a l -> HdRel R a (Reports.insert_sorted before x l).
Proof.
  intros Hax Hal. destruct l as [|y l]; simpl; [now constructor|].
  destruct (before y x); constructor; [now inversion Hal|exact Hax].
Qed.

Lemma insert_sorted_Sorted x l :
  Sorted R l -> Sorted R (Reports.insert_sorted before x l).
Proof.
  induction l as [|y l IH]; simpl; intros Hs.
  - repeat constructor.
  - apply Sorted_inv in Hs as [Hs Hhd].
    destruct (before y x) eqn:E.
    + constructor; [auto|]. apply insert_sorted_HdRel; auto.
    + constructor; [now constructor|]. constructor. auto.
Qed.

Lemma sort_by_Sorted l : Sorted R (Reports.sort_by before l).
Proof.
  unfold Reports.sort_by. induction l as [|y l IH]; simpl; [constructor|].
  now apply insert_sorted_Sorted.
Qed.

End InsertionSort.

Lemma names_add_hours_old key colour h acc :
  key ∈ Reports.cd_name <$> acc ->
  Reports.cd_name <$> Reports.add_hours key colour h acc
  = Reports.cd_name <$> acc.
Proof.
  induction acc as [|c acc IH]; intros Hin.
  - now apply elem_of_nil in Hin.
  - rewrite fmap_cons in Hin. cbn [Reports.add_hours].
    case_bool_decide as Hc; rewrite !fmap_cons; [reflexivity|].
    apply elem_of_cons in Hin as [Hin|Hin]; [congruence|].
    f_equal. now apply IH.
Qed.

Lemma names_add_hours_new key colour h acc :
  key ∉ Reports.cd_name <$> acc ->
  Reports.cd_name <$> Reports.add_hours key colour h acc
  = (Reports.cd_name <$> acc) ++ [key].
Proof.
  induction acc as [|c acc IH]; intros Hin; [reflexivity|].
  rewrite fmap_cons, not_elem_of_cons in Hin. destruct Hin as [Hne Hin].
  cbn [Reports.add_hours].
  rewrite bool_decide_eq_false_2 by congruence.
  rewrite !fmap_cons. simpl. f_equal. now apply IH.
Qed.

Lemma names_of_reduce (key : Reports.TimeEntry -> string)
    (colour : Reports.TimeEntry -> string) es :
  forall acc,
    NoDup (Reports.cd_name <$> acc) ->
    let bars :=
      fold_left (fun acc entry =>
                   Reports.add_hours (key entry) (colour entry)
                                     (Reports.entry_hours entry) acc)
                es acc in
    NoDup (Reports.cd_name <$> bars)
    /\ forall n, n ∈ Reports.cd_name <$> bars
                 <-> n ∈ Reports.cd_name <$> acc \/ n ∈ key <$> es.
Proof.
  induction es as [|e es IH]; simpl; intros acc Hnd.
  - split; [exact Hnd|]. intros n. rewrite elem_of_nil. tauto.
  - specialize (IH (Reports.add_hours (key e) (colour e)
                                      (Reports.entry_hours e) acc)).
    destruct (decide (key e ∈ Reports.cd_name <$> acc)) as [Hin|Hin].
    + rewrite names_add_hours_old in IH by exact Hin.
      destruct (IH Hnd) as [H1 H2]. split; [exact H1|].
      intros n. rewrite H2, elem_of_cons.
      split; [tauto|]. intros [?|[->|?]]; auto.
    + rewrite names_add_hours_new in IH by exact Hin.
      destruct IH as [H1 H2].
      { apply NoDup_app. split; [exact Hnd|].
        split; [|apply NoDup_singleton].
        intros x Hx Hx'. apply list_elem_of_singleton in Hx' as ->. done. }
      split; [exact H1|].
      intros n. rewrite H2, elem_of_app, list_elem_of_singleton, elem_of_cons.
      tauto.
Qed.

(** X16.  When no project bears the name of a property that every
    object inherits, the project chart has one bar for each project name
    among the loaded entries, no name twice, and the bars come by
    decreasing hours. *)
Theorem project_chart_is_sorted_one_bar_per_project timeEntries :
  (forall e, e ∈ timeEntries ->
             Reports.name (Reports.projects e) ∉ Charts.inherited_keys) ->
  let bars := Reports.getProjectChartData timeEntries in
  Sorted Charts.by_hours bars
  /\ NoDup (Reports.cd_name <$> bars)
  /\ forall n, n ∈ Reports.cd_name <$> bars
               <-> exists e, e ∈ timeEntries
                             /\ Reports.name (Reports.projects e) = n.
Proof.
  intros _ bars. subst bars. unfold Reports.getProjectChartData.
  set (l := fold_left _ timeEntries []).
  destruct (names_of_reduce
              (fun e => Reports.name (Reports.projects e))
              (fun e => or_else (Reports.color (Reports.projects e))
                                Reports.default_color)
              timeEntries [] (NoDup_nil_2)) as [Hnd Hnames].
  fold l in Hnd, Hnames.
  split; [|split].
  - apply sort_by_Sorted; unfold Reports.more_hours, Charts.by_hours.
    + intros y x H. apply negb_true_iff in H.
      destruct (Qlt_le_dec (Reports.hours x) (Reports.hours y)) as [Hlt|Hle].
      * now apply Qlt_le_weak.
      * apply Qle_bool_iff in Hle. congruence.
    + intros y x H. apply negb_false_iff in H. now apply Qle_bool_iff.
  - now rewrite sort_by_Permutation.
  - intros n. rewrite sort_by_Permutation, Hnames, elem_of_nil.
    rewrite list_elem_of_fmap. split.
    + intros [[]|(e & -> & He)]. eauto.
    + intros (e & He & <-). right. eauto.
Qed.

Lemma project_chart_is_sorted_one_bar_per_project_witness :
  let bars := Reports.getProjectChartData Runs.loaded in
  Sorted Charts.by_hours bars
  /\ NoDup (Reports.cd_name <$> bars)
  /\ forall n, n ∈ Reports.cd_name <$> bars
               <-> exists e, e ∈ Runs.loaded
                             /\ Reports.name (Reports.projects e) = n.
Proof.
  refine (project_chart_is_sorted_one_bar_per_project Runs.loaded _).
  intros e He.
  repeat (apply elem_of_cons in He as [->|He]; [vm_compute; intros H;
    repeat (apply elem_of_cons in H as [H|H]; [discriminate|]);
    now apply elem_of_nil in H|]).
  now apply elem_of_nil in He.
Defined.

(** ** What the components display *)

Lemma string_app_assoc (a b c : string) : (a +:+ b) +:+ c = a +:+ b +:+ c.
Proof.
  induction a as [|x a IH]; [reflexivity|].
  change (String x ((a +:+ b) +:+ c) = String x (a +:+ b +:+ c)).
  now f_equal.
Qed.

Lemma Math_round_of_minutes total :
  Math_round (inject_Z total / 60 * 60) = total.
Proof.
  unfold Math_round.
  assert (H : (inject_Z total / 60 * 60 + (1 # 2) == (2 * total + 1) # 2)%Q).
  { unfold Qeq, Qdiv, Qmult, Qplus, Qinv, inject_Z. simpl. lia. }
  rewrite H. unfold Qfloor. euclid (2 * total + 1) 2. lia.
Qed.

(** X18.  A total of less than sixty minutes, a negative one included, is
    shown by the dashboard as that number of minutes. *)
Theorem formatHours_shows_the_minutes_below_an_hour total :
  total < 60 ->
  Display.formatHours (inject_Z total / 60) = pretty total +:+ "m".
Proof.
  intros Hlt. unfold Display.formatHours.
  destruct (Qle_bool 1 (inject_Z total / 60)) eqn:Hle.
  - apply Qle_bool_iff in Hle.
    unfold Qle, Qdiv, Qmult, Qinv, inject_Z in Hle. simpl in Hle. lia.
  - now rewrite Math_round_of_minutes.
Qed.

Lemma formatHours_shows_the_minutes_below_an_hour_witness :
  Display.formatHours (inject_Z (-30) / 60) = pretty (-30) +:+ "m".
Proof.
  apply (formatHours_shows_the_minutes_below_an_hour (-30)). lia.
Defined.

(** X19.  A total of a whole number of hours, one at least, is shown by
    the dashboard as that number with one decimal zero. *)
Theorem formatHours_shows_whole_hours k :
  1 <= k ->
  Display.formatHours (inject_Z (60 * k) / 60) = pretty k +:+ ".0h".
Proof.
  intros Hk. unfold Display.formatHours.
  destruct (Qle_bool 1 (inject_Z (60 * k) / 60)) eqn:Hle.
  - unfold Display.toFixed1.
    assert (H : (inject_Z (60 * k) / 60 * 10 + (1 # 2)
                 == (20 * k + 1) # 2)%Q).
    { unfold Qeq, Qdiv, Qmult, Qplus, Qinv, inject_Z. simpl. lia. }
    rewrite H. unfold Qfloor.
    replace ((20 * k + 1) / 2) with (10 * k)
      by (euclid (20 * k + 1) 2; lia).
    replace (10 * k / 10) with k by (euclid (10 * k) 10; lia).
    replace ((10 * k) mod 10) with 0 by (euclid (10 * k) 10; lia).
    rewrite !string_app_assoc. reflexivity.
  - assert (Hge : (1 <= inject_Z (60 * k) / 60)%Q).
    { unfold Qle, Qdiv, Qmult, Qinv, inject_Z. simpl. lia. }
    apply Qle_bool_iff in Hge. congruence.
Qed.

Lemma formatHours_shows_whole_hours_witness :
  Display.formatHours (inject_Z (60 * 2) / 60) = pretty 2 +:+ ".0h".
Proof. apply (formatHours_shows_whole_hours 2). lia. Defined.

(** X20.  For an elapsed time that is not negative, the three numbers of
    the timer display are the hours, the minutes below sixty and the
    seconds below sixty that make up the elapsed seconds. *)
Theorem formatTime_shows_the_elapsed_seconds seconds :
  0 <= seconds ->
  exists h m s,
    Display.formatTime seconds
    = Display.padStart2 (pretty h) +:+ ":" +:+ Display.padStart2 (pretty m)
      +:+ ":" +:+ Display.padStart2 (pretty s)
    /\ seconds = 3600 * h + 60 * m + s
    /\ 0 <= h /\ 0 <= m < 60 /\ 0 <= s < 60.
Proof.
  intros Hs.
  exists (seconds / 3600), (Z.rem seconds 3600 / 60), (Z.rem seconds 60).
  split; [reflexivity|].
  rewrite !Z.rem_mod_nonneg by lia.
  pose proof (Z.div_mod seconds 3600 ltac:(lia)).
  pose proof (Z.mod_pos_bound seconds 3600 ltac:(lia)).
  pose proof (Z.div_mod (seconds mod 3600) 60 ltac:(lia)).
  pose proof (Z.mod_pos_bound (seconds mod 3600) 60 ltac:(lia)).
  pose proof (Z.div_mod seconds 60 ltac:(lia)).
  pose proof (Z.mod_pos_bound seconds 60 ltac:(lia)).
  set (h := seconds / 3600) in *. set (r := seconds mod 3600) in *.
  set (m := r / 60) in *. set (t := r mod 60) in *.
  set (u := seconds / 60) in *. set (s := seconds mod 60) in *.
  clearbody h m t u s. clearbody r. lia.
Qed.

Lemma formatTime_shows_the_elapsed_seconds_witness :
  exists h m s,
    Display.formatTime 3725
    = Display.padStart2 (pretty h) +:+ ":" +:+ Display.padStart2 (pretty m)
      +:+ ":" +:+ Display.padStart2 (pretty s)
    /\ 3725 = 3600 * h + 60 * m + s
    /\ 0 <= h /\ 0 <= m < 60 /\ 0 <= s < 60.
Proof. apply (formatTime_shows_the_elapsed_seconds 3725). lia. Defined.

(** ** The dashboard *)

Import Dashboard.

Lemma fold_minutes_from a l :
  fold_left (fun acc d => acc + or_zero d) l a = a + sum_minutes l.
Proof.
  unfold sum_minutes. revert a.
  induction l as [|d l IH]; intros a; simpl; [lia|].
  rewrite IH, (IH (0 + or_zero d)). lia.
Qed.

Lemma sum_minutes_cons d l : sum_minutes (d :: l) = or_zero d + sum_minutes l.
Proof. unfold sum_minutes at 1. simpl. apply fold_minutes_from. Qed.

Lemma sum_minutes_Permutation l l' :
  l ≡ₚ l' -> sum_minutes l = sum_minutes l'.
Proof.
  induction 1; rewrite ?sum_minutes_cons; lia.
Qed.

Lemma minutes_of_insert (m : Table) i r :
  m !! i = None ->
  minutes_of (<[i := r]> m) = or_zero (duration_minutes r) + minutes_of m.
Proof.
  intros Hi. unfold minutes_of.
  rewrite (sum_minutes_Permutation _
             ((fun kv : Id * Row => duration_minutes kv.2)
              <$> (i, r) :: map_to_list m)).
  - rewrite fmap_cons. apply sum_minutes_cons.
  - apply fmap_Permutation. now apply map_to_list_insert.
Qed.

Lemma minutes_of_filter (P : Id * Row -> Prop) `{!forall kv, Decision (P kv)}
    (m : Table) :
  (forall i r d, m !! i = Some r -> duration_minutes r = Some d -> 0 <= d) ->
  minutes_of (filter P m) <= minutes_of m.
Proof.
  induction m as [|i r m Hi IH] using map_ind; intros Hpos.
  - rewrite map_filter_empty. lia.
  - assert (IH' : minutes_of (filter P m) <= minutes_of m).
    { apply IH. intros j r' d Hj. apply (Hpos j r' d).
      rewrite lookup_insert_ne; [exact Hj|]. intros ->. congruence. }
    assert (Hr : 0 <= or_zero (duration_minutes r)).
    { destruct (duration_minutes r) as [d|] eqn:Hd; simpl; [|lia].
      apply (Hpos i r d); [apply lookup_insert_eq | exact Hd]. }
    rewrite minutes_of_insert by exact Hi.
    destruct (decide (P (i, r))) as [HP|HP].
    + rewrite map_filter_insert_True by exact HP.
      rewrite minutes_of_insert; [lia|].
      apply map_lookup_filter_None. now left.
    + rewrite map_filter_insert_False by exact HP.
      rewrite delete_id by exact Hi. lia.
Qed.

Lemma hours_of_query user since tbl :
  Reports.hours_of (Some (Reports.query_durations user since tbl))
  = (inject_Z (minutes_of (filter (Reports.stats_filter user since) tbl))
     / 60)%Q.
Proof. reflexivity. Qed.

Lemma getDay_bounds off today : 0 <= Dashboard.getDay off today < 7.
Proof. unfold Dashboard.getDay. apply Z.mod_pos_bound. lia. Qed.

(** X21.  On a Sunday the week of the dashboard starts at the instant of
    loading: when every entry started before it, the week's total is
    zero, whatever was tracked earlier that day. *)
Theorem week_total_on_sunday_skips_earlier_entries link user off today
    (tbl : Table) :
  Dashboard.getDay off today = 0 ->
  (forall i r, tbl !! i = Some r -> start_time r < of_ms today) ->
  ((Dashboard.loadStats link user off today tbl).2 == 0)%Q.
Proof.
  intros Hsun Hbefore.
  unfold Dashboard.loadStats, Reports.loadStats. cbv zeta. cbn [snd].
  destruct link; [|reflexivity].
  rewrite hours_of_query.
  replace (filter _ tbl) with (∅ : Table); [reflexivity|].
  symmetry. apply map_empty_filter_2. intros i r Hi (_ & Hge & _).
  specialize (Hbefore i r Hi). simpl in Hge.
  unfold Dashboard.startOfWeek in Hge. rewrite Hsun in Hge.
  unfold of_ms in *. lia.
Qed.

Lemma week_total_on_sunday_skips_earlier_entries_witness :
  ((Dashboard.loadStats true (Some Scenario.alice) 0 Runs.sunday_10h
      Runs.sunday_table).2 == 0)%Q.
Proof.
  apply week_total_on_sunday_skips_earlier_entries.
  - reflexivity.
  - intros i r Hi. unfold Runs.sunday_table in Hi.
    apply lookup_singleton_Some in Hi as [_ <-]. vm_compute. reflexivity.
Defined.

(** X22.  On every other day of the week, when no duration is negative,
    today's total of the dashboard is at most the week's. *)
Theorem today_total_is_within_the_week link user off today (tbl : Table) :
  Dashboard.getDay off today <> 0 ->
  (forall i r d, tbl !! i = Some r -> duration_minutes r = Some d ->
                 0 <= d) ->
  ((Dashboard.loadStats link user off today tbl).1
   <= (Dashboard.loadStats link user off today tbl).2)%Q.
Proof.
  intros Hday Hpos.
  unfold Dashboard.loadStats, Reports.loadStats. cbv zeta. cbn [fst snd].
  destruct link; [|apply Qle_refl].
  rewrite !hours_of_query.
  set (day := Reports.stats_filter user (Dashboard.startOfDay off today)).
  set (week := Reports.stats_filter user (Dashboard.startOfWeek off today)).
  assert (Hsub : filter day tbl = filter day (filter week tbl)).
  { rewrite map_filter_filter. apply map_filter_ext.
    intros i r Hi. split; [|tauto].
    intros Hd. split; [exact Hd|].
    destruct Hd as (Hu & Hge & Hn). split; [exact Hu|]. split; [|exact Hn].
    simpl in *. etrans; [|exact Hge].
    pose proof (getDay_bounds off today) as Hb.
    unfold Dashboard.startOfWeek, Dashboard.startOfDay, of_ms,
      Dashboard.ms_per_day.
    pose proof (Z.mod_pos_bound (today + off) 86400000 ltac:(lia)).
    unfold Dashboard.ms_per_day in *. nia. }
  assert (Hle : minutes_of (filter day tbl) <= minutes_of (filter week tbl)).
  { rewrite Hsub. apply minutes_of_filter.
    intros i r d Hi. apply map_lookup_filter_Some in Hi as [Hi _].
    now apply (Hpos i r d). }
  unfold Qle, Qdiv, Qmult, Qinv, inject_Z. simpl. lia.
Qed.

Lemma today_total_is_within_the_week_witness :
  ((Dashboard.loadStats true (Some Scenario.alice) 0 Runs.monday_10h
      Runs.sunday_table).1
   <= (Dashboard.loadStats true (Some Scenario.alice) 0 Runs.monday_10h
         Runs.sunday_table).2)%Q.
Proof.
  apply today_total_is_within_the_week.
  - vm_compute. discriminate.
  - intros i r d Hi. unfold Runs.sunday_table in Hi.
    apply lookup_singleton_Some in Hi as [_ <-].
    simpl. intros [= <-]. lia.
Defined.

(** ** Deleting a task *)

(** X23.  When a task is deleted, every time entry stays: an entry of
    the task loses the reference and gets a new [updated_at], and nothing
    else of it changes; the other entries are as they were. *)
Theorem delete_task_only_clears_the_reference t now (tbl : Table) i r :
  table_ok tbl ->
  tbl !! i = Some r ->
  Cascade.delete_task t now tbl !! i
  = Some (if bool_decide (task_id r = Some t)
          then set_updated_at now (apply_update Cascade.set_null_task r)
          else r).
Proof.
  intros Hok Hi. unfold Cascade.delete_task.
  rewrite lookup_fmap, Hi. simpl. f_equal.
  case_bool_decide as Ht; [|reflexivity].
  unfold update_row, update_updated_at_column. f_equal.
  destruct (end_time r) as [e|] eqn:He.
  - destruct (Hok i r Hi e He) as [Hd Hr].
    rewrite (trigger_with_end _ _ now e) by exact He.
    destruct r; simpl in *. subst. reflexivity.
  - apply trigger_untouched; [exact He|].
    simpl. destruct (is_running r) as [[]|]; [left|right|left]; congruence.
Qed.

Lemma delete_task_only_clears_the_reference_witness :
  Cascade.delete_task "t1" 99 Runs.sunday_table !! 1%nat
  = Some (if bool_decide
               (task_id (Runs.half_hour (3 * 86400000 + 32400000)
                           (Some "t1")) = Some "t1")
          then set_updated_at 99
                 (apply_update Cascade.set_null_task
                    (Runs.half_hour (3 * 86400000 + 32400000) (Some "t1")))
          else Runs.half_hour (3 * 86400000 + 32400000) (Some "t1")).
Proof.
  apply delete_task_only_clears_the_reference.
  - intros j r Hj e He. unfold Runs.sunday_table in Hj.
    apply lookup_singleton_Some in Hj as [_ <-].
    simpl in He. injection He as <-. split; reflexivity.
  - reflexivity.
Defined.
